(** * quickbooks-nodejs: the invoice routes and the OAuth glue, in Rocq

    A shallow embedding of [src/routes/invoiceRoutes.js], [src/index.js]
    and of the stand-alone entry point (the second top-level file, which
    registers [/auth], [/callback] and [/api/invoices] only).

    The handlers are glue around two SDKs: the OAuth helper and the
    accounting client.  What the SDKs answer is a parameter of every
    definition below; what the handlers ask of them is recorded as a trace
    of calls. *)

From Stdlib Require Import List String Ascii ZArith Bool Lia PeanoNat.
From Stdlib Require Import Floats.SpecFloat.
Import ListNotations.

Local Open Scope string_scope.
Local Open Scope list_scope.

(** ** JavaScript values *)

Module JS.

(** A Number is an IEEE 754 binary64, in the Z-based specification of the
    Standard Library: 53 bits of precision, exponent bound 1024. *)
Definition prec : Z := 53.
Definition emax : Z := 1024.

Definition number := spec_float.

(** The Number for the integer [z]. *)
Definition of_Z (z : Z) : number := binary_normalize prec emax z 0 false.

(** The Number nearest to [m / d] (round to nearest, ties to even), for
    positive integers [m] and [d]. *)
Definition of_ratio (neg : bool) (m d : positive) : number :=
  let '(q, e, l) := SFdiv_core_binary prec emax (Zpos m) 0 (Zpos d) 0 in
  binary_round_aux prec emax neg q e l.

(** The Number nearest to [m * 10 ^ e], with the sign [neg]. *)
Definition of_decimal (neg : bool) (m : N) (e : Z) : number :=
  match m with
  | N0 => S754_zero neg
  | Npos p =>
      match e with
      | Zneg k => of_ratio neg p (Pos.pow 10 k)
      | _ => binary_round prec emax neg (p * Z.to_pos (10 ^ e)) 0
      end
  end.

Definition num_eqb (x y : number) : bool := SFeqb x y.

(** Strings are sequences of code units; an object is the list of its own
    properties, in insertion order, the first entry of a key being the one
    a lookup sees. *)
#[warnings="-register-all"]
Inductive value : Type :=
| VUndef
| VNull
| VBool (b : bool)
| VNum (n : number)
| VStr (s : string)
| VArr (l : list value)
| VObj (o : list (string * value)).

Definition obj : Type := list (string * value).

(** ToBoolean. *)
Definition truthy (v : value) : bool :=
  match v with
  | VUndef | VNull => false
  | VBool b => b
  | VNum (S754_zero _) | VNum S754_nan => false
  | VNum _ => true
  | VStr s => negb (String.eqb s "")
  | VArr _ | VObj _ => true
  end.

Definition nullish (v : value) : bool :=
  match v with
  | VUndef | VNull => true
  | _ => false
  end.

Fixpoint lookup (o : obj) (k : string) : value :=
  match o with
  | [] => VUndef
  | (k', v) :: o' => if String.eqb k' k then v else lookup o' k
  end.

(** Canonical array index: ["0"], or decimal digits without a leading
    zero. *)
Definition is_digit (c : ascii) : bool :=
  let n := nat_of_ascii c in (48 <=? n)%nat && (n <=? 57)%nat.

Definition digit_val (c : ascii) : N := N.of_nat (nat_of_ascii c - 48).

Fixpoint digits_val (acc : N) (s : string) : option N :=
  match s with
  | EmptyString => Some acc
  | String c s' =>
      if is_digit c then digits_val (10 * acc + digit_val c) s' else None
  end.

Definition array_index (k : string) : option nat :=
  match k with
  | EmptyString => None
  | String "0" EmptyString => Some 0%nat
  | String "0" _ => None
  | _ => option_map N.to_nat (digits_val 0 k)
  end.

(** [v.k] for a [v] that is neither [undefined] nor [null]: own properties
    of objects, [length] and the indices of arrays and strings.  Inherited
    methods are not data and are not modelled. *)
Definition prop (v : value) (k : string) : value :=
  match v with
  | VObj o => lookup o k
  | VArr l =>
      if String.eqb k "length" then VNum (of_Z (Z.of_nat (List.length l)))
      else match array_index k with
           | Some i => nth i l VUndef
           | None => VUndef
           end
  | VStr s =>
      if String.eqb k "length" then VNum (of_Z (Z.of_nat (String.length s)))
      else match array_index k with
           | Some i =>
               match String.get i s with
               | Some c => VStr (String c EmptyString)
               | None => VUndef
               end
           | None => VUndef
           end
  | _ => VUndef
  end.

(** Member access [v.k]: a TypeError ([None]) on [undefined] and [null]. *)
Definition get (v : value) (k : string) : option value :=
  if nullish v then None else Some (prop v k).

(** [v === s] for a string [s], [v === n] for a Number [n]. *)
Definition strict_eq_str (v : value) (s : string) : bool :=
  match v with
  | VStr s' => String.eqb s' s
  | _ => false
  end.

Definition strict_eq_num (v : value) (n : number) : bool :=
  match v with
  | VNum n' => num_eqb n' n
  | _ => false
  end.

(** [new Error(msg)], as far as a handler reads it. *)
Definition Error (msg : string) : value := VObj [("message", VStr msg)].

(** The TypeError V8 raises for [v.k] on [undefined] or [null]. *)
Definition show_nullish (v : value) : string :=
  match v with
  | VNull => "null"
  | _ => "undefined"
  end.

Definition TypeError_read (v : value) (k : string) : value :=
  Error ("Cannot read properties of " ++ show_nullish v
         ++ " (reading '" ++ k ++ "')").

(** *** parseInt and parseFloat *)

(** StrWhiteSpaceChar, among the code units a [string] holds: TAB, LF, VT,
    FF, CR, SP and NBSP. *)
Definition is_space (c : ascii) : bool :=
  let n := nat_of_ascii c in
  ((9 <=? n)%nat && (n <=? 13)%nat) || (n =? 32)%nat || (n =? 160)%nat.

Fixpoint trim_start (s : string) : string :=
  match s with
  | String c s' => if is_space c then trim_start s' else s
  | EmptyString => s
  end.

(** Optional sign: [true] for ["-"]. *)
Definition take_sign (s : string) : bool * string :=
  match s with
  | String "-" s' => (true, s')
  | String "+" s' => (false, s')
  | _ => (false, s)
  end.

(** The longest prefix of decimal digits: how many there are, their value
    on top of [acc], and the rest. *)
Fixpoint take_digits (acc : N) (s : string) : nat * N * string :=
  match s with
  | String c s' =>
      if is_digit c then
        let '(n, v, r) := take_digits (10 * acc + digit_val c) s' in
        (S n, v, r)
      else (0%nat, acc, s)
  | EmptyString => (0%nat, acc, s)
  end.

Definition hex_val (c : ascii) : option N :=
  let n := nat_of_ascii c in
  if is_digit c then Some (digit_val c)
  else if (97 <=? n)%nat && (n <=? 102)%nat then Some (N.of_nat (n - 87))
  else if (65 <=? n)%nat && (n <=? 70)%nat then Some (N.of_nat (n - 55))
  else None.

Fixpoint take_hex (acc : N) (s : string) : nat * N * string :=
  match s with
  | String c s' =>
      match hex_val c with
      | Some d =>
          let '(n, v, r) := take_hex (16 * acc + d) s' in (S n, v, r)
      | None => (0%nat, acc, s)
      end
  | EmptyString => (0%nat, acc, s)
  end.

Definition signed (neg : bool) (m : N) : number :=
  match m with
  | N0 => S754_zero neg
  | Npos p => binary_round prec emax neg p 0
  end.

(** [parseInt(s)] with no radix argument: radix 16 after a [0x] prefix,
    radix 10 otherwise; NaN when no digit follows the sign. *)
Definition parseInt (s : string) : number :=
  let '(neg, s1) := take_sign (trim_start s) in
  match s1 with
  | String "0" (String x s2) =>
      if (Ascii.eqb x "x" || Ascii.eqb x "X")%bool then
        let '(n, v, _) := take_hex 0 s2 in
        match n with
        | O => S754_nan
        | _ => signed neg v
        end
      else
        let '(_, v, _) := take_digits 0 s1 in signed neg v
  | _ =>
      let '(n, v, _) := take_digits 0 s1 in
      match n with
      | O => S754_nan
      | _ => signed neg v
      end
  end.

(** The exponent part of a StrDecimalLiteral, when one is there: [e] or
    [E], an optional sign and at least one digit. *)
Definition take_exponent (s : string) : Z :=
  match s with
  | String c s' =>
      if (Ascii.eqb c "e" || Ascii.eqb c "E")%bool then
        let '(neg, s2) := take_sign s' in
        let '(n, v, _) := take_digits 0 s2 in
        match n with
        | O => 0%Z
        | _ => if neg then (- Z.of_N v)%Z else Z.of_N v
        end
      else 0%Z
  | EmptyString => 0%Z
  end.

Definition starts_with (p s : string) : bool := String.prefix p s.

(** [parseFloat(s)]: the Number of the longest prefix of the trimmed
    string that is a StrDecimalLiteral, NaN when there is none. *)
Definition parseFloat (s : string) : number :=
  let '(neg, s1) := take_sign (trim_start s) in
  if starts_with "Infinity" s1 then S754_infinity neg
  else
    let '(ni, vi, s2) := take_digits 0 s1 in
    let '(nf, v, s3) :=
      match s2 with
      | String "." s2' => take_digits vi s2'
      | _ => (0%nat, vi, s2)
      end in
    match (ni + nf)%nat with
    | O => S754_nan
    | _ => of_decimal neg v (take_exponent s3 - Z.of_nat nf)
    end.

End JS.

Import JS.

(** ** The two SDKs, as the handlers see them *)

Module SDK.

(** *** The OAuth helper

    The helper holds the token record.  Whether the access token is still
    good is the helper's judgement on that record ([checkExpiry], which
    hides the clock).  The handlers read the record with [getToken] and
    replace it with [setToken].  [createToken] is a method of the helper
    too: besides telling how the exchange ends it may leave the helper
    changed, and how it does is a parameter of the handler that calls
    it. *)
Record OAuthClient : Type := {
  token : obj;
  checkExpiry : obj -> bool
}.

Definition isAccessTokenValid (c : OAuthClient) : bool :=
  checkExpiry c (token c).

Definition getToken (c : OAuthClient) : obj := token c.

Definition setToken (t : obj) (c : OAuthClient) : OAuthClient :=
  {| token := t; checkExpiry := checkExpiry c |}.

(** How [await oauthClient.createToken(url)] ends: with an auth response
    ([None] when the helper resolves to [null]; otherwise the record its
    [getToken()] returns), or with a rejection carrying an Error object. *)
Inductive exchange : Type :=
| Resolved (authResponse : option obj)
| Rejected (error : obj).

(** The scopes a handler may ask for. *)
Inductive scope : Type :=
| Accounting
| OpenId.

(** The calls a handler makes on the helper that touch the token. *)
Inductive oauth_call : Type :=
| CreateToken (url : string)
| SetToken (t : obj).

(** *** The accounting client *)

(** The arguments of [new QuickBooks(...)], in order. *)
Record qbo_config : Type := {
  consumerKey : value;
  consumerSecret : value;
  oauthToken : value;
  tokenSecret : value;
  realmId : value;
  useSandbox : bool;
  debug : bool;
  minorversion : value;
  oauthversion : string;
  refreshToken : value
}.

(** [process.env], as far as it is read. *)
Record process_env : Type := {
  CLIENT_ID : value;
  CLIENT_SECRET : value;
  ENVIRONMENT : value
}.

(** The upstream calls, each with the argument the handler passes. *)
Inductive call : Type :=
| FindCustomers (criteria : value)
| CreateCustomer (customer : value)
| FindItems (criteria : value)
| CreateInvoice (invoice : value)
| FindInvoices (criteria : value).

(** The second callback argument of a query, by the shape the handlers
    test: no body, a body without [QueryResponse], a [QueryResponse]
    without the entity key (the platform's answer when nothing matches),
    or the array under the entity key. *)
Inductive query_result : Type :=
| NoBody
| NoQueryResponse
| NoEntities
| Entities (l : list value).

(** A call either throws before returning, or delivers [(err, result)] to
    its callback. *)
Inductive delivery : Type :=
| Thrown (error : obj)
| Called (err result : value).

(** What the platform answers to a client.  [findItems] is asked once per
    line item within a request; its first argument is the position of the
    line item, so that two lookups of one SKU may be answered
    differently. *)
Record QuickBooks : Type := {
  findCustomers : value -> value * query_result;
  createCustomer : value -> value * value;
  findItems : nat -> value -> value * query_result;
  createInvoice : value -> value * value;
  findInvoices : value -> delivery
}.

Definition platform : Type := qbo_config -> QuickBooks.

(** *** Responses *)

(** [res.status(n).json(body)] and [res.redirect(location)]. *)
Inductive response : Type :=
| Json (status : nat) (body : value)
| Redirect (location : string).

(** What a handler's code leaves behind: the response it sent, if it sent
    one, and the upstream calls in the order they were issued.  A callback
    that throws before sending leaves [None]; what the client then does
    with the exception is the client's and is not followed. *)
Definition outcome : Type := option response * list call.

End SDK.

Import SDK.

(** ** Promises that record the upstream calls they issue *)

Module Async.

Inductive result (A : Type) : Type :=
| Ok (a : A)
| Throw (error : value).

Arguments Ok {A} a.
Arguments Throw {A} error.

(** A computation that has settled: the calls it issued, and how it
    ended. *)
Definition M (A : Type) : Type := list call * result A.

Definition ret {A} (a : A) : M A := ([], Ok a).

Definition throw {A} (error : value) : M A := ([], Throw error).

Definition emit (c : call) : M unit := ([c], Ok tt).

Definition bind {A B} (m : M A) (f : A -> M B) : M B :=
  match m with
  | (t, Ok a) => let '(t', r) := f a in (t ++ t', r)
  | (t, Throw error) => (t, Throw error)
  end.

(** [v.k] inside a [try]: the TypeError is thrown. *)
Definition member (v : value) (k : string) : M value :=
  match get v k with
  | Some x => ret x
  | None => throw (TypeError_read v k)
  end.

(** The rejection that settles first among [rs], the promise at position
    [i + j] settling at time [arrival (i + j)]; of two that settle
    together the one started first wins. *)
Fixpoint first_rejection {A} (arrival : nat -> nat) (i : nat)
    (rs : list (result A)) : option (nat * value) :=
  match rs with
  | [] => None
  | Ok _ :: rs' => first_rejection arrival (S i) rs'
  | Throw error :: rs' =>
      match first_rejection arrival (S i) rs' with
      | Some (t, error') =>
          if (t <? arrival i)%nat then Some (t, error')
          else Some (arrival i, error)
      | None => Some (arrival i, error)
      end
  end.

Fixpoint fulfilled {A} (rs : list (result A)) : list A :=
  match rs with
  | [] => []
  | Ok a :: rs' => a :: fulfilled rs'
  | Throw _ :: rs' => fulfilled rs'
  end.

(** [Promise.all] over promises that were all started, in order, before
    any of them settled: every call of every promise is issued; the
    result is the array of values when all fulfil, and the rejection that
    settles first otherwise. *)
Definition Promise_all {A} (arrival : nat -> nat) (ps : list (M A))
    : M (list A) :=
  (List.concat (map fst ps),
   match first_rejection arrival 0 (map snd ps) with
   | Some (_, error) => Throw error
   | None => Ok (fulfilled (map snd ps))
   end).

(** [l.map(f)] with the index at hand. *)
Fixpoint mapi {A B} (f : nat -> A -> B) (i : nat) (l : list A) : list B :=
  match l with
  | [] => []
  | a :: l' => f i a :: mapi f (S i) l'
  end.

End Async.

Import Async.

Declare Scope async_scope.
Delimit Scope async_scope with async.
Notation "x <- m ;; k" := (bind m (fun x => k))
  (at level 61, m at next level, right associativity) : async_scope.
Notation "m ;; k" := (bind m (fun _ => k))
  (at level 61, right associativity) : async_scope.

Local Open Scope async_scope.

(** ** src/routes/invoiceRoutes.js *)

Module InvoiceRoutes.

(** The JSON body of [POST /api/invoices/create], in the shape the route
    reads: [lineItems] is an array; a line item's [sku] and the three
    fields that go through [parseInt] and [parseFloat] are strings. *)
Record line_item : Type := {
  sku : string;
  description : value;
  quantity : string;
  unitPrice : string;
  totalAmount : string
}.

Record request_body : Type := {
  company : value;
  email : value;
  billingAddress : value;
  billingTown : value;
  billingState : value;
  billingZipCode : value;
  shippingAddress : value;
  shippingTown : value;
  shippingState : value;
  shippingZipCode : value;
  shippingDate : value;
  lineItems : list line_item
}.

(** [initializeQBO]: the client is built from the stored token. *)
Definition initializeQBO (env : process_env) (oauthClient : OAuthClient)
    : qbo_config :=
  let authResponse := getToken oauthClient in
  {| consumerKey := CLIENT_ID env;
     consumerSecret := CLIENT_SECRET env;
     oauthToken := lookup authResponse "access_token";
     tokenSecret := VBool false;
     realmId := lookup authResponse "realmId";
     useSandbox := strict_eq_str (ENVIRONMENT env) "sandbox";
     debug := true;
     minorversion := VNull;
     oauthversion := "2.0";
     refreshToken := lookup authResponse "refresh_token" |}.

Definition criterion (field : string) (v : value) : value :=
  VArr [VObj [("field", VStr field); ("value", v); ("operator", VStr "=")]].

Definition newCustomer (customerData : request_body) : value :=
  VObj [("CompanyName", company customerData);
        ("DisplayName", company customerData);
        ("PrimaryEmailAddr", VObj [("Address", email customerData)]);
        ("BillAddr",
         VObj [("Line1", billingAddress customerData);
               ("City", billingTown customerData);
               ("CountrySubDivisionCode", billingState customerData);
               ("PostalCode", billingZipCode customerData)]);
        ("ShipAddr",
         VObj [("Line1", shippingAddress customerData);
               ("City", shippingTown customerData);
               ("CountrySubDivisionCode", shippingState customerData);
               ("PostalCode", shippingZipCode customerData)])].

(** [findOrCreateCustomer]: search by company name; the first customer of
    a non-empty answer is the result, anything else leads to a create. *)
Definition findOrCreateCustomer (qbo : QuickBooks)
    (customerData : request_body) : M value :=
  let criteria := criterion "CompanyName" (company customerData) in
  emit (FindCustomers criteria) ;;
  let '(err, customers) := findCustomers qbo criteria in
  if truthy err then throw err
  else
    match customers with
    | Entities (customer :: _) => ret customer
    | _ =>
        emit (CreateCustomer (newCustomer customerData)) ;;
        let '(err, customer) :=
          createCustomer qbo (newCustomer customerData) in
        if truthy err then throw err else ret customer
    end.

(** [findItem], for the line item at position [i]: the first item of the
    answer when the answer has the [Item] key, [null] otherwise. *)
Definition findItem (qbo : QuickBooks) (i : nat) (sku : string) : M value :=
  let criteria := criterion "Sku" (VStr sku) in
  emit (FindItems criteria) ;;
  let '(err, items) := findItems qbo i criteria in
  if truthy err then throw err
  else
    match items with
    | Entities l => ret (nth 0 l VUndef)
    | _ => ret VNull
    end.

Definition not_found (sku : string) : string :=
  "Item with SKU " ++ sku ++ " not found".

(** The line entry built for a line item and the catalog item found. *)
Definition lineEntry (item : line_item) (qboItem : value) : value :=
  VObj [("Amount", VNum (parseFloat (totalAmount item)));
        ("DetailType", VStr "SalesItemLineDetail");
        ("Description", description item);
        ("SalesItemLineDetail",
         VObj [("ItemRef",
                VObj [("value", prop qboItem "Id");
                      ("name", prop qboItem "Name")]);
               ("Qty", VNum (parseInt (quantity item)));
               ("UnitPrice", VNum (parseFloat (unitPrice item)))])].

(** The function mapped over [req.body.lineItems]. *)
Definition lineItem (qbo : QuickBooks) (i : nat) (item : line_item)
    : M value :=
  qboItem <- findItem qbo i (sku item) ;;
  if negb (truthy qboItem) then throw (Error (not_found (sku item)))
  else ret (lineEntry item qboItem).

Definition invoiceData (customer : value) (body : request_body)
    (lines : list value) : value :=
  VObj [("CustomerRef", VObj [("value", prop customer "Id")]);
        ("BillEmail", VObj [("Address", email body)]);
        ("ShipDate", shippingDate body);
        ("Line", VArr lines);
        ("BillAddr",
         VObj [("Line1", billingAddress body);
               ("City", billingTown body);
               ("CountrySubDivisionCode", billingState body);
               ("PostalCode", billingZipCode body)]);
        ("ShipAddr",
         VObj [("Line1", shippingAddress body);
               ("City", shippingTown body);
               ("CountrySubDivisionCode", shippingState body);
               ("PostalCode", shippingZipCode body)])].

(** The [try] block up to the invoice object: the customer, the read of
    [customer.Id] for the log line, the line items. *)
Definition assemble (qbo : QuickBooks) (arrival : nat -> nat)
    (body : request_body) : M value :=
  customer <- findOrCreateCustomer qbo body ;;
  member customer "Id" ;;
  lines <- Promise_all arrival (mapi (lineItem qbo) 0 (lineItems body)) ;;
  ret (invoiceData customer body lines).

Definition unauthenticated : value :=
  VObj [("error", VStr "Authentication required");
        ("message",
         VStr "Please visit /auth endpoint to authenticate with QuickBooks")].

Definition failure (details : value) : value :=
  VObj [("error", VStr "Failed to create invoice"); ("details", details)].

Definition created (invoice : value) : value :=
  VObj [("success", VBool true);
        ("message", VStr "Invoice created successfully");
        ("invoice", invoice)].

(** The [catch] block; reading [error.message] ends the handler without a
    response when [error] is [undefined] or [null]. *)
Definition catch (error : value) : option response :=
  match get error "message" with
  | Some details => Some (Json 500 (failure details))
  | None => None
  end.

(** The callback of [qbo.createInvoice]; it runs outside the [try], so
    when the read of [invoice.Id] for the log line fails, the callback ends
    there, before any response ([None]). *)
Definition createInvoice_callback (err invoice : value) : option response :=
  if truthy err then Some (Json 500 (failure (prop err "message")))
  else
    match get invoice "Id" with
    | Some _ => Some (Json 201 (created invoice))
    | None => None
    end.

(** [router.post("/invoices/create", ...)]. *)
Definition post_invoices_create (env : process_env) (upstream : platform)
    (oauthClient : OAuthClient) (arrival : nat -> nat) (body : request_body)
    : outcome :=
  if negb (isAccessTokenValid oauthClient) then
    (Some (Json 401 unauthenticated), [])
  else
    let qbo := upstream (initializeQBO env oauthClient) in
    match assemble qbo arrival body with
    | (calls, Throw error) => (catch error, calls)
    | (calls, Ok invoice) =>
        let '(err, created_invoice) := createInvoice qbo invoice in
        (createInvoice_callback err created_invoice,
         calls ++ [CreateInvoice invoice])
    end.

End InvoiceRoutes.

(** ** The routes of the two entry points *)

Module Entry.

Definition fetch_failure : value :=
  VObj [("error", VStr "Failed to fetch invoices")].

(** The [catch] block of [GET /api/invoices]. *)
Definition invoices_catch (error : obj) : response :=
  if truthy (lookup error "authResponse")
     && strict_eq_num (prop (lookup error "authResponse") "status")
          (of_Z 401)
  then Redirect "/auth"
  else Json 500 fetch_failure.

(** The callback of [qbo.findInvoices]; the log line reads
    [invoices.QueryResponse], which fails on [undefined] and [null], and
    the callback runs outside the [try]: it then ends before any response
    ([None]). *)
Definition findInvoices_callback (err invoices : value) : option response :=
  if truthy err then Some (Json 500 fetch_failure)
  else
    match get invoices "QueryResponse" with
    | Some _ => Some (Json 200 invoices)
    | None => None
    end.

(** [app.get("/api/invoices", ...)], the same text in both entry points;
    the client is built inline with the arguments of [initializeQBO]. *)
Definition get_api_invoices (env : process_env) (upstream : platform)
    (oauthClient : OAuthClient) : outcome :=
  if negb (isAccessTokenValid oauthClient) then (Some (Redirect "/auth"), [])
  else
    let qbo := upstream (InvoiceRoutes.initializeQBO env oauthClient) in
    let criteria := VObj [("fetchAll", VBool true)] in
    match findInvoices qbo criteria with
    | Thrown error => (Some (invoices_catch error), [FindInvoices criteria])
    | Called err invoices =>
        (findInvoices_callback err invoices, [FindInvoices criteria])
    end.

(** The two entry points differ in [GET /callback]. *)
Inductive variant : Type :=
| Index        (* src/index.js: answers with JSON *)
| Standalone.  (* the stand-alone entry point: redirects to the list *)

Definition authenticated (token : obj) : value :=
  VObj [("success", VBool true);
        ("message", VStr "Authentication successful");
        ("realmId", lookup token "realmId")].

Definition callback_success (v : variant) (token : obj) : response :=
  match v with
  | Index => Json 200 (authenticated token)
  | Standalone => Redirect "/api/invoices"
  end.

Definition callback_failure (v : variant) (error : value) : response :=
  match v with
  | Index =>
      Json 500 (VObj [("error", VStr "Authentication failed");
                      ("details", prop error "message")])
  | Standalone => Json 500 (VObj [("error", VStr "Authentication failed")])
  end.

(** [app.get("/callback", ...)]: the response, the helper after the
    request, and the calls made on the helper.  [createToken] is the
    helper's method: called on the helper with the callback URL, it tells
    how the exchange ends and how it leaves the helper. *)
Definition get_callback (v : variant)
    (createToken : OAuthClient -> string -> exchange * OAuthClient)
    (oauthClient : OAuthClient) (url : string)
    : response * OAuthClient * list oauth_call :=
  match createToken oauthClient url with
  | (Resolved (Some token), helper) =>
      (callback_success v token, setToken token helper,
       [CreateToken url; SetToken token])
  | (Resolved None, helper) =>
      (callback_failure v (TypeError_read VNull "getToken"), helper,
       [CreateToken url])
  | (Rejected error, helper) =>
      (callback_failure v (VObj error), helper, [CreateToken url])
  end.

Definition scopes (v : variant) : list scope :=
  match v with
  | Index => [Accounting; OpenId]
  | Standalone => [Accounting]
  end.

(** [app.get("/auth", ...)]: a redirect to the authorization URL the
    helper builds for the scopes and the fixed state value. *)
Definition get_auth (v : variant)
    (authorizeUri : list scope -> string -> string) : response :=
  Redirect (authorizeUri (scopes v) "randomState").

End Entry.

Import InvoiceRoutes Entry.

(** ** Vocabulary of the statements *)

Module Spec.

Definition is_create_customer (c : call) : bool :=
  match c with CreateCustomer _ => true | _ => false end.

Definition is_create_invoice (c : call) : bool :=
  match c with CreateInvoice _ => true | _ => false end.

Definition is_find_items (c : call) : bool :=
  match c with FindItems _ => true | _ => false end.

(** The customer a search answer offers for reuse. *)
Definition existing_customer (customers : query_result) : option value :=
  match customers with
  | Entities (customer :: _) => Some customer
  | _ => None
  end.

(** The catalog item a lookup answer offers: what [findItem] resolves
    to. *)
Definition first_item (items : query_result) : value :=
  match items with
  | Entities l => nth 0 l VUndef
  | _ => VNull
  end.

(** The lookup went through and offered no item. *)
Definition unmatched (reply : value * query_result) : bool :=
  negb (truthy (fst reply)) && negb (truthy (first_item (snd reply))).

(** The lookup yields no item for the line: upstream error, or no item
    offered. *)
Definition lookup_fails (reply : value * query_result) : bool :=
  truthy (fst reply) || negb (truthy (first_item (snd reply))).

(** The lookup the route issues for a line item. *)
Definition sku_lookup (item : line_item) : call :=
  FindItems (criterion "Sku" (VStr (sku item))).

Definition sku_reply (qbo : QuickBooks) (i : nat) (item : line_item)
    : value * query_result :=
  findItems qbo i (criterion "Sku" (VStr (sku item))).

(** [needle] occurs in [hay]. *)
Fixpoint contains (needle hay : string) : bool :=
  String.prefix needle hay
  || match hay with
     | String _ hay' => contains needle hay'
     | EmptyString => false
     end.

(** The response is a 500 whose [details] is a message with [sku] in
    it. *)
Definition names_sku (r : option response) (sku : string) : Prop :=
  exists body msg,
    r = Some (Json 500 body) /\ prop body "details" = VStr msg
    /\ contains sku msg = true.

Definition is_ok {A} (r : result A) : bool :=
  match r with Ok _ => true | Throw _ => false end.

(** The two calls of the customer step. *)
Definition customer_search (body : request_body) : call :=
  FindCustomers (criterion "CompanyName" (company body)).

Definition customer_create (body : request_body) : call :=
  CreateCustomer (newCustomer body).

(** How the line items' promises settle. *)
Definition settled (qbo : QuickBooks) (body : request_body)
    : list (result value) :=
  map snd (mapi (lineItem qbo) 0 (lineItems body)).

(** The client a request works with. *)
Definition client (env : process_env) (upstream : platform)
    (oauthClient : OAuthClient) : QuickBooks :=
  upstream (initializeQBO env oauthClient).

End Spec.

Import Spec.

(** ** Sample requests and platforms *)

Module Sample.

Definition env : process_env :=
  {| CLIENT_ID := VStr "id"; CLIENT_SECRET := VStr "secret";
     ENVIRONMENT := VStr "sandbox" |}.

Definition stored : obj :=
  [("access_token", VStr "at"); ("refresh_token", VStr "rt");
   ("realmId", VStr "4620816365")].

Definition signed_in : OAuthClient :=
  {| token := stored; checkExpiry := fun _ => true |}.

Definition signed_out : OAuthClient :=
  {| token := []; checkExpiry := fun _ => false |}.

Definition acme : value :=
  VObj [("Id", VStr "7"); ("CompanyName", VStr "Acme")].

Definition widget : value :=
  VObj [("Id", VStr "99"); ("Name", VStr "Widget")].

Definition invoice_145 : value :=
  VObj [("Id", VStr "145"); ("DocNumber", VStr "1037")].

Definition a1 : line_item :=
  {| sku := "A1"; description := VStr "Widget"; quantity := "2";
     unitPrice := "10.00"; totalAmount := "20.00" |}.

Definition zz : line_item :=
  {| sku := "ZZ"; description := VStr "Gadget"; quantity := "1";
     unitPrice := "5.50"; totalAmount := "5.50" |}.

Definition order (items : list line_item) : request_body :=
  {| company := VStr "Acme"; email := VStr "billing@acme.test";
     billingAddress := VStr "1 Main St"; billingTown := VStr "Springfield";
     billingState := VStr "IL"; billingZipCode := VStr "62701";
     shippingAddress := VStr "2 Dock Rd"; shippingTown := VStr "Shelbyville";
     shippingState := VStr "IL"; shippingZipCode := VStr "62565";
     shippingDate := VStr "2024-05-01"; lineItems := items |}.

(** A platform that knows the customer when [known] holds, answers each
    lookup by [catalog], and accepts every create. *)
Definition shop (known : bool)
    (catalog : nat -> value -> value * query_result) : platform :=
  fun _ =>
    {| findCustomers := fun _ =>
         (VNull, if known then Entities [acme] else NoEntities);
       createCustomer := fun _ => (VNull, acme);
       findItems := catalog;
       createInvoice := fun _ => (VNull, invoice_145);
       findInvoices := fun _ =>
         Called VNull (VObj [("QueryResponse", VObj [])]) |}.

(** Every SKU is a widget; no SKU is known. *)
Definition stocked : nat -> value -> value * query_result :=
  fun _ _ => (VNull, Entities [widget]).

Definition bare : nat -> value -> value * query_result :=
  fun _ _ => (VNull, NoEntities).

(** The first lookup fails upstream, the others find nothing. *)
Definition socket_error : value := VObj [("message", VStr "socket hang up")].

Definition flaky : nat -> value -> value * query_result :=
  fun i _ =>
    match i with
    | O => (socket_error, NoBody)
    | _ => (VNull, NoEntities)
    end.

(** The search for the customer fails upstream. *)
Definition offline : platform :=
  fun _ =>
    {| findCustomers := fun _ => (socket_error, NoBody);
       createCustomer := fun _ => (socket_error, VUndef);
       findItems := bare;
       createInvoice := fun _ => (socket_error, VUndef);
       findInvoices := fun _ => Called socket_error VUndef |}.

(** An error of the shape the [catch] of the list route tests for. *)
Definition unauthorized : obj :=
  [("message", VStr "Unauthorized");
   ("authResponse", VObj [("status", VNum (of_Z 401))])].

(** The list call reports that error to its callback, or throws it. *)
Definition revoked (thrown : bool) : platform :=
  fun _ =>
    {| findCustomers := fun _ => (VNull, NoEntities);
       createCustomer := fun _ => (VNull, acme);
       findItems := bare;
       createInvoice := fun _ => (VNull, invoice_145);
       findInvoices := fun _ =>
         if thrown then Thrown unauthorized
         else Called (VObj unauthorized) VUndef |}.

Definition in_order : nat -> nat := fun i => i.

Definition fetch_all : value := VObj [("fetchAll", VBool true)].

Definition callback_url : string := "/callback?code=abc&realmId=4620816365".

Definition fresh : obj :=
  [("access_token", VStr "at2"); ("refresh_token", VStr "rt2");
   ("token_type", VStr "bearer"); ("realmId", VStr "4620816365")].

Definition denied : obj := [("message", VStr "invalid_grant")].

End Sample.

(** ** Further vocabulary *)

Module Terms.

(** The line entries of the line items from position [i] on, each built
    from the item its lookup offers. *)
Definition entries (qbo : QuickBooks) (i : nat) (items : list line_item)
    : list value :=
  mapi (fun j item =>
          lineEntry item (first_item (snd (sku_reply qbo j item)))) i items.

(** What a line item's promise rejects with when its lookup fails: the
    upstream error, or the "not found" Error for its SKU. *)
Definition rejection (qbo : QuickBooks) (i : nat) (item : line_item)
    : value :=
  if truthy (fst (sku_reply qbo i item)) then fst (sku_reply qbo i item)
  else Error (not_found (sku item)).

(** The list call of [GET /api/invoices]. *)
Definition list_call : call := FindInvoices (VObj [("fetchAll", VBool true)]).

End Terms.

Import Terms.

(** ** Further samples *)

Module Cases.

(** A platform given by its five answers. *)
Definition service (customers : value * query_result)
    (made : value * value)
    (catalog : nat -> value -> value * query_result)
    (invoiced : value * value) (listed : delivery) : platform :=
  fun _ =>
    {| findCustomers := fun _ => customers;
       createCustomer := fun _ => made;
       findItems := catalog;
       createInvoice := fun _ => invoiced;
       findInvoices := fun _ => listed |}.

Definition duplicate_name : value :=
  VObj [("message", VStr "Duplicate Name Exists Error")].

Definition validation_fault : value :=
  VObj [("message", VStr "Required param missing")].

Definition listing : value :=
  VObj [("QueryResponse", VObj [("Invoice", VArr [Sample.invoice_145])])].

Definition nothing_listed : delivery := Called VNull listing.

(** The customer search finds nobody and the create is refused. *)
Definition no_create : platform :=
  service (VNull, NoEntities) (duplicate_name, VUndef) Sample.stocked
    (VNull, Sample.invoice_145) nothing_listed.

(** The create answers with neither an error nor a customer. *)
Definition ghost : platform :=
  service (VNull, NoEntities) (VNull, VUndef) Sample.stocked
    (VNull, Sample.invoice_145) nothing_listed.

(** The invoice create is refused. *)
Definition no_invoice : platform :=
  service (VNull, Entities [Sample.acme]) (VNull, Sample.acme)
    Sample.stocked (validation_fault, VUndef) nothing_listed.

(** The answers to the lookups arrive last first. *)
Definition reversed : nat -> nat := fun i => (10 - i)%nat.

(** A thrown error whose status is the string ["401"]. *)
Definition stringly : obj :=
  [("message", VStr "Unauthorized");
   ("authResponse", VObj [("status", VStr "401")])].

Definition throwing (error : obj) : platform :=
  service (VNull, NoEntities) (VNull, Sample.acme) Sample.bare
    (VNull, Sample.invoice_145) (Thrown error).

Definition half : line_item :=
  {| sku := "A1"; description := VStr "Widget"; quantity := "2.75";
     unitPrice := "10.00"; totalAmount := "27.50" |}.

Definition vague : line_item :=
  {| sku := "A1"; description := VUndef; quantity := "a few";
     unitPrice := ""; totalAmount := "-1e3" |}.

Definition production : process_env :=
  {| CLIENT_ID := VStr "id"; CLIENT_SECRET := VStr "secret";
     ENVIRONMENT := VStr "Sandbox" |}.

(** Three ways for [createToken] to behave: the exchange is refused and
    the helper is left alone; the exchange resolves with a token and the
    helper is left alone; the helper notes the realm of the callback in
    its record, and then the exchange is refused. *)
Definition refuses (error : obj)
    : OAuthClient -> string -> exchange * OAuthClient :=
  fun c _ => (Rejected error, c).

Definition grants (t : obj)
    : OAuthClient -> string -> exchange * OAuthClient :=
  fun c _ => (Resolved (Some t), c).

Definition notes_realm (realm : value) (error : obj)
    : OAuthClient -> string -> exchange * OAuthClient :=
  fun c _ => (Rejected error, setToken (("realmId", realm) :: token c) c).

End Cases.

(** ** Values *)

Lemma truthy_not_nullish (v : value) : truthy v = true -> nullish v = false.
Proof. destruct v; simpl; congruence. Qed.

Lemma get_not_nullish (v : value) (k : string) :
  nullish v = false -> get v k = Some (prop v k).
Proof. unfold get; intros ->; reflexivity. Qed.

Lemma contains_prefix (needle hay : string) :
  String.prefix needle hay = true -> contains needle hay = true.
Proof. destruct hay; simpl; intros ->; reflexivity. Qed.

Lemma prefix_append (s t : string) : String.prefix s (s ++ t) = true.
Proof.
  induction s as [|c s IH]; simpl.
  - destruct t; reflexivity.
  - destruct (Ascii.ascii_dec c c); [exact IH | congruence].
Qed.

Lemma contains_append (p s q : string) : contains s (p ++ s ++ q) = true.
Proof.
  induction p as [|c p IH]; simpl.
  - apply contains_prefix, prefix_append.
  - rewrite IH. apply orb_true_r.
Qed.

Lemma not_found_contains (sku : string) :
  contains sku (not_found sku) = true.
Proof. unfold not_found. apply contains_append. Qed.

(** ** Promise.all *)

Section PromiseAll.

Context {A : Type}.
Variable arrival : nat -> nat.

Lemma first_rejection_none (i : nat) (rs : list (result A)) :
  first_rejection arrival i rs = None <-> forallb is_ok rs = true.
Proof.
  revert i; induction rs as [|r rs IH]; intros i; simpl.
  - tauto.
  - destruct r as [a|e]; simpl.
    + apply IH.
    + split; [|discriminate].
      destruct (first_rejection arrival (S i) rs) as [[t e']|];
        [destruct (t <? arrival i)%nat|]; discriminate.
Qed.

(** The rejection reported is one of the rejections, at the time it
    settled, and none settled before it. *)
Lemma first_rejection_some (i : nat) (rs : list (result A)) t e :
  first_rejection arrival i rs = Some (t, e) ->
  exists j, nth_error rs j = Some (Throw e) /\ t = arrival (i + j)
    /\ forall k e', nth_error rs k = Some (Throw e') ->
                    (t <= arrival (i + k))%nat.
Proof.
  revert i t e; induction rs as [|r rs IH]; intros i t e; simpl.
  - discriminate.
  - destruct r as [a|e0].
    + intros H. destruct (IH _ _ _ H) as (j & Hj & Ht & Hmin).
      exists (S j). rewrite Nat.add_succ_r. repeat split; auto.
      intros [|k] e' Hk; simpl in Hk; [discriminate|].
      rewrite Nat.add_succ_r. apply (Hmin k e' Hk).
    + destruct (first_rejection arrival (S i) rs) as [[t1 e1]|] eqn:Hrest.
      * destruct (IH _ _ _ Hrest) as (j & Hj & Ht & Hmin).
        destruct (t1 <? arrival i)%nat eqn:Hlt; intros H; inversion H;
          subst t e; clear H.
        -- apply Nat.ltb_lt in Hlt.
           exists (S j). rewrite Nat.add_succ_r. repeat split; auto.
           intros [|k] e' Hk; simpl in Hk.
           ++ rewrite Nat.add_0_r. lia.
           ++ rewrite Nat.add_succ_r. apply (Hmin k e' Hk).
        -- apply Nat.ltb_ge in Hlt.
           exists 0%nat. rewrite Nat.add_0_r. repeat split; auto.
           intros [|k] e' Hk; simpl in Hk.
           ++ rewrite Nat.add_0_r. lia.
           ++ rewrite Nat.add_succ_r.
              specialize (Hmin k e' Hk). simpl in Hmin. lia.
      * intros H; inversion H; subst t e; clear H.
        exists 0%nat. rewrite Nat.add_0_r. repeat split; auto.
        intros [|k] e' Hk; simpl in Hk.
        -- rewrite Nat.add_0_r. lia.
        -- apply first_rejection_none in Hrest.
           exfalso. apply nth_error_In in Hk.
           rewrite forallb_forall in Hrest.
           specialize (Hrest _ Hk). discriminate.
Qed.

Lemma fulfilled_all (rs : list (result A)) :
  forallb is_ok rs = true -> map Ok (fulfilled rs) = rs.
Proof.
  induction rs as [|[a|e] rs IH]; simpl; intros H;
    [reflexivity | rewrite IH by exact H; reflexivity | discriminate].
Qed.

(** [Promise.all] issues the calls of all its promises; it fulfils, with
    the values in order, exactly when every promise does. *)
Lemma Promise_all_fulfils (ps : list (M A)) :
  forallb is_ok (map snd ps) = true ->
  exists values,
    Promise_all arrival ps = (List.concat (map fst ps), Ok values)
    /\ map Ok values = map snd ps.
Proof.
  intros Hall. exists (fulfilled (map snd ps)). unfold Promise_all.
  apply first_rejection_none with (i := 0%nat) in Hall. rewrite Hall.
  split; [reflexivity|]. apply fulfilled_all.
  apply (first_rejection_none 0%nat). exact Hall.
Qed.

End PromiseAll.

(** ** The customer step *)

Section Customer.

Variable qbo : QuickBooks.
Variable body : request_body.

Lemma findOrCreateCustomer_error err customers :
  findCustomers qbo (criterion "CompanyName" (company body))
    = (err, customers) ->
  truthy err = true ->
  findOrCreateCustomer qbo body = ([customer_search body], Throw err).
Proof.
  intros H He. unfold findOrCreateCustomer. rewrite H, He. reflexivity.
Qed.

Lemma findOrCreateCustomer_found err customers customer :
  findCustomers qbo (criterion "CompanyName" (company body))
    = (err, customers) ->
  truthy err = false ->
  existing_customer customers = Some customer ->
  findOrCreateCustomer qbo body = ([customer_search body], Ok customer).
Proof.
  intros H He Hc. unfold findOrCreateCustomer. rewrite H, He.
  destruct customers as [| | |[|c l]]; simpl in Hc; try discriminate.
  inversion Hc; subst. reflexivity.
Qed.

Lemma findOrCreateCustomer_created err customers :
  findCustomers qbo (criterion "CompanyName" (company body))
    = (err, customers) ->
  truthy err = false ->
  existing_customer customers = None ->
  findOrCreateCustomer qbo body =
    ([customer_search body; customer_create body],
     if truthy (fst (createCustomer qbo (newCustomer body)))
     then Throw (fst (createCustomer qbo (newCustomer body)))
     else Ok (snd (createCustomer qbo (newCustomer body)))).
Proof.
  intros H He Hc. unfold findOrCreateCustomer. rewrite H, He.
  destruct (createCustomer qbo (newCustomer body)) as [err' customer].
  destruct customers as [| | |[|c l]]; simpl in Hc; try discriminate;
    simpl; destruct (truthy err'); reflexivity.
Qed.

(** The step issues the search, and at most a create after it. *)
Lemma findOrCreateCustomer_calls :
  fst (findOrCreateCustomer qbo body) = [customer_search body]
  \/ fst (findOrCreateCustomer qbo body) = [customer_search body; customer_create body].
Proof.
  destruct (findCustomers qbo (criterion "CompanyName" (company body)))
    as [err customers] eqn:H.
  destruct (truthy err) eqn:He.
  - rewrite (findOrCreateCustomer_error _ _ H He). now left.
  - destruct (existing_customer customers) as [c|] eqn:Hc.
    + rewrite (findOrCreateCustomer_found _ _ _ H He Hc). now left.
    + rewrite (findOrCreateCustomer_created _ _ H He Hc). now right.
Qed.

(** What the step throws is an upstream error, which is truthy. *)
Lemma findOrCreateCustomer_throw t error :
  findOrCreateCustomer qbo body = (t, Throw error) -> truthy error = true.
Proof.
  destruct (findCustomers qbo (criterion "CompanyName" (company body)))
    as [err customers] eqn:H.
  destruct (truthy err) eqn:He.
  - rewrite (findOrCreateCustomer_error _ _ H He). congruence.
  - destruct (existing_customer customers) as [c|] eqn:Hc.
    + rewrite (findOrCreateCustomer_found _ _ _ H He Hc). congruence.
    + rewrite (findOrCreateCustomer_created _ _ H He Hc).
      destruct (truthy (fst (createCustomer qbo (newCustomer body))))
        eqn:He'; congruence.
Qed.

End Customer.

(** ** The line items *)

Section Lines.

Variable qbo : QuickBooks.

(** A line item's promise, by the answer to its lookup. *)
Lemma lineItem_eq (i : nat) (item : line_item) :
  lineItem qbo i item =
    ([sku_lookup item],
     if truthy (fst (sku_reply qbo i item))
     then Throw (fst (sku_reply qbo i item))
     else if truthy (first_item (snd (sku_reply qbo i item)))
          then Ok (lineEntry item (first_item (snd (sku_reply qbo i item))))
          else Throw (Error (not_found (sku item)))).
Proof.
  unfold lineItem, findItem, sku_reply, sku_lookup.
  destruct (findItems qbo i (criterion "Sku" (VStr (sku item))))
    as [err items].
  simpl. destruct (truthy err); [reflexivity|].
  destruct items as [| | |l]; simpl; try reflexivity.
  destruct (truthy (nth 0 l VUndef)); reflexivity.
Qed.

(** Every lookup is issued, in the order of the line items, whatever the
    answers are. *)
Lemma lookups_issued (i : nat) (items : list line_item) :
  List.concat (map fst (mapi (lineItem qbo) i items)) = map sku_lookup items.
Proof.
  revert i; induction items as [|item items IH]; intros i; simpl.
  - reflexivity.
  - rewrite IH, lineItem_eq. reflexivity.
Qed.

Lemma mapi_nth_error {A B} (f : nat -> A -> B) (i j : nat) (l : list A) :
  nth_error (mapi f i l) j = option_map (f (i + j)%nat) (nth_error l j).
Proof.
  revert i j; induction l as [|a l IH]; intros i [|j]; simpl;
    try reflexivity.
  - rewrite Nat.add_0_r. reflexivity.
  - rewrite IH, Nat.add_succ_r. reflexivity.
Qed.

Lemma settled_nth_error (j : nat) (items : list line_item) :
  nth_error (map snd (mapi (lineItem qbo) 0 items)) j =
    option_map (fun item => snd (lineItem qbo j item)) (nth_error items j).
Proof.
  rewrite nth_error_map, mapi_nth_error. simpl.
  destruct (nth_error items j); reflexivity.
Qed.

(** What a line item's promise throws is never [undefined] or [null]. *)
Lemma lineItem_throw (i : nat) (item : line_item) error :
  snd (lineItem qbo i item) = Throw error -> nullish error = false.
Proof.
  rewrite lineItem_eq. simpl.
  destruct (truthy (fst (sku_reply qbo i item))) eqn:He.
  - intros H; inversion H; subst. now apply truthy_not_nullish.
  - destruct (truthy (first_item (snd (sku_reply qbo i item))));
      intros H; inversion H; reflexivity.
Qed.

End Lines.

(** ** The route as a whole *)

Section Assemble.

Variable qbo : QuickBooks.
Variable arrival : nat -> nat.
Variable body : request_body.

Lemma assemble_eq :
  assemble qbo arrival body =
    match findOrCreateCustomer qbo body with
    | (t, Throw error) => (t, Throw error)
    | (t, Ok customer) =>
        if nullish customer then (t, Throw (TypeError_read customer "Id"))
        else
          (t ++ map sku_lookup (lineItems body),
           match first_rejection arrival 0 (settled qbo body) with
           | Some (_, error) => Throw error
           | None => Ok (invoiceData customer body (fulfilled (settled qbo body)))
           end)
    end.
Proof.
  unfold assemble, bind, member, get, Promise_all, settled.
  destruct (findOrCreateCustomer qbo body) as [t [customer|error]];
    [|reflexivity].
  destruct (nullish customer); simpl.
  - rewrite app_nil_r. reflexivity.
  - rewrite lookups_issued, !app_nil_r.
    destruct (first_rejection arrival 0
                (map snd (mapi (lineItem qbo) 0 (lineItems body))))
      as [[t' error]|]; reflexivity.
Qed.

(** Before the invoice object exists, only searches, lookups and at most
    a customer create have been issued. *)
Lemma assemble_calls :
  exists lookups,
    (fst (assemble qbo arrival body)
       = fst (findOrCreateCustomer qbo body) ++ lookups)
    /\ (lookups = [] \/ lookups = map sku_lookup (lineItems body)).
Proof.
  rewrite assemble_eq.
  destruct (findOrCreateCustomer qbo body) as [t [customer|error]]; simpl.
  - destruct (nullish customer); simpl.
    + exists []. rewrite app_nil_r. auto.
    + eexists. split; [reflexivity|]. auto.
  - exists []. rewrite app_nil_r. auto.
Qed.

Lemma assemble_no_invoice :
  filter is_create_invoice (fst (assemble qbo arrival body)) = [].
Proof.
  destruct assemble_calls as (lookups & -> & Hl).
  rewrite filter_app.
  assert (filter is_create_invoice lookups = []) as ->.
  { destruct Hl as [->| ->]; [reflexivity|].
    induction (lineItems body); simpl; auto. }
  destruct (findOrCreateCustomer_calls qbo body) as [-> | ->]; reflexivity.
Qed.

(** Whatever the [try] block throws has a [message] to read. *)
Lemma assemble_throw t error :
  assemble qbo arrival body = (t, Throw error) -> nullish error = false.
Proof.
  rewrite assemble_eq.
  destruct (findOrCreateCustomer qbo body) as [t0 [customer|e0]] eqn:Hc.
  - destruct (nullish customer).
    + intros H; inversion H; reflexivity.
    + destruct (first_rejection arrival 0 (settled qbo body)) as [[t' e']|] eqn:Hr;
        intros H; inversion H; subst.
      apply first_rejection_some in Hr. destruct Hr as (j & Hj & _).
      unfold settled in Hj. rewrite settled_nth_error in Hj.
      destruct (nth_error (lineItems body) j) as [item|]; simpl in Hj;
        [|discriminate].
      inversion Hj. eapply lineItem_throw; eauto.
  - intros H; inversion H; subst.
    apply truthy_not_nullish. eapply findOrCreateCustomer_throw; eauto.
Qed.

End Assemble.

(** A call of a kind that a list of calls has none of is not in it. *)
Ltac not_among_calls Hin Hnone :=
  exfalso;
  match type of Hnone with
  | filter ?p ?l = [] =>
      match type of Hin with
      | In ?c l =>
          let Hf := fresh "Hf" in
          assert (In c (filter p l)) as Hf by (apply filter_In; auto);
          rewrite Hnone in Hf; destruct Hf
      end
  end.

Section Route.

Variable env : process_env.
Variable upstream : platform.
Variable oauthClient : OAuthClient.
Variable arrival : nat -> nat.
Variable body : request_body.

Lemma post_valid :
  isAccessTokenValid oauthClient = true ->
  post_invoices_create env upstream oauthClient arrival body =
    match assemble (client env upstream oauthClient) arrival body with
    | (calls, Throw error) =>
        (Some (Json 500 (failure (prop error "message"))), calls)
    | (calls, Ok invoice) =>
        (createInvoice_callback (fst (createInvoice (client env upstream oauthClient) invoice))
           (snd (createInvoice (client env upstream oauthClient) invoice)),
         calls ++ [CreateInvoice invoice])
    end.
Proof.
  intros Hv. unfold post_invoices_create. rewrite Hv. simpl. fold (client env upstream oauthClient).
  destruct (assemble (client env upstream oauthClient) arrival body) as [calls [invoice|error]] eqn:Ha.
  - destruct (createInvoice (client env upstream oauthClient) invoice); reflexivity.
  - unfold catch. rewrite get_not_nullish; [reflexivity|].
    eapply assemble_throw; eauto.
Qed.

(** The invoice-create call, when there is one, is the last call and
    carries the assembled invoice object. *)
Lemma post_create_invoice invoice :
  In (CreateInvoice invoice)
     (snd (post_invoices_create env upstream oauthClient arrival body)) ->
  isAccessTokenValid oauthClient = true
  /\ exists calls,
       assemble (client env upstream oauthClient) arrival body
         = (calls, Ok invoice).
Proof.
  destruct (isAccessTokenValid oauthClient) eqn:Hv.
  - rewrite (post_valid Hv).
    pose proof (assemble_no_invoice (client env upstream oauthClient)
                  arrival body) as Hno.
    destruct (assemble (client env upstream oauthClient) arrival body)
      as [calls [invoice'|error]] eqn:Ha; simpl in *; intros Hin.
    + apply in_app_or in Hin. destruct Hin as [Hin|[Heq|[]]].
      * not_among_calls Hin Hno.
      * inversion Heq; subst. eauto.
    + not_among_calls Hin Hno.
  - unfold post_invoices_create. rewrite Hv. simpl. intros [].
Qed.

End Route.

(** ** Calls of the create route, by kind *)

Lemma lookups_not_customer_creates (items : list line_item) :
  filter is_create_customer (map sku_lookup items) = [].
Proof. induction items; simpl; auto. Qed.

Section Calls.

Variable env : process_env.
Variable upstream : platform.
Variable oauthClient : OAuthClient.
Variable arrival : nat -> nat.
Variable body : request_body.

(** With a valid token the calls are those of the customer step, then
    either nothing or one lookup per line item, then at most one
    invoice-create. *)
Lemma post_calls :
  isAccessTokenValid oauthClient = true ->
  exists lookups tail,
    snd (post_invoices_create env upstream oauthClient arrival body)
      = fst (findOrCreateCustomer (client env upstream oauthClient) body)
        ++ lookups ++ tail
    /\ (lookups = [] \/ lookups = map sku_lookup (lineItems body))
    /\ (tail = [] \/ exists invoice, tail = [CreateInvoice invoice]).
Proof.
  intros Hv. rewrite (post_valid _ _ _ _ _ Hv).
  destruct (assemble_calls (client env upstream oauthClient) arrival body)
    as (lookups & Hcalls & Hl).
  destruct (assemble (client env upstream oauthClient) arrival body)
    as [calls [invoice|error]]; simpl in *; subst calls; exists lookups.
  - exists [CreateInvoice invoice]. rewrite app_assoc. eauto.
  - exists []. rewrite app_nil_r. auto.
Qed.

Lemma post_customer_creates :
  isAccessTokenValid oauthClient = true ->
  filter is_create_customer
    (snd (post_invoices_create env upstream oauthClient arrival body))
  = filter is_create_customer
      (fst (findOrCreateCustomer (client env upstream oauthClient) body)).
Proof.
  intros Hv. destruct (post_calls Hv) as (lookups & tail & -> & Hl & Ht).
  rewrite !filter_app.
  assert (filter is_create_customer lookups = []) as ->
    by (destruct Hl as [-> | ->];
        [reflexivity | apply lookups_not_customer_creates]).
  assert (filter is_create_customer tail = []) as ->
    by (destruct Ht as [-> | [invoice ->]]; reflexivity).
  rewrite !app_nil_r. reflexivity.
Qed.

End Calls.

(** ** The claims *)

(** C4. While the helper judges the stored access token invalid (or there
    is none), [POST /api/invoices/create] answers 401 with the JSON body
    [{error, message}] and [GET /api/invoices] answers with a redirect to
    [/auth]; neither issues an upstream call. *)
Theorem invalid_token_no_upstream_call
    (env : process_env) (upstream : platform) (oauthClient : OAuthClient)
    (arrival : nat -> nat) (body : request_body) :
  isAccessTokenValid oauthClient = false ->
  post_invoices_create env upstream oauthClient arrival body
    = (Some (Json 401 unauthenticated), [])
  /\ prop unauthenticated "error" = VStr "Authentication required"
  /\ get_api_invoices env upstream oauthClient
    = (Some (Redirect "/auth"), []).
Proof.
  intros Hv. unfold post_invoices_create, get_api_invoices.
  rewrite Hv. repeat split.
Qed.

Lemma invalid_token_no_upstream_call_witness :
  post_invoices_create Sample.env (Sample.shop true Sample.stocked)
    Sample.signed_out Sample.in_order (Sample.order [Sample.a1])
    = (Some (Json 401 unauthenticated), [])
  /\ prop unauthenticated "error" = VStr "Authentication required"
  /\ get_api_invoices Sample.env (Sample.shop true Sample.stocked)
       Sample.signed_out
    = (Some (Redirect "/auth"), []).
Proof.
  apply invalid_token_no_upstream_call. reflexivity.
Defined.

(** C3. With a valid token, when the search by company name goes through
    and offers no customer, exactly one customer-create call is issued,
    and its payload carries the body's company name, email, and billing
    and shipping address fields. *)
Theorem missing_customer_created_once
    (env : process_env) (upstream : platform) (oauthClient : OAuthClient)
    (arrival : nat -> nat) (body : request_body)
    (err : value) (customers : query_result) :
  isAccessTokenValid oauthClient = true ->
  findCustomers (client env upstream oauthClient)
    (criterion "CompanyName" (company body)) = (err, customers) ->
  truthy err = false ->
  existing_customer customers = None ->
  exists payload,
    filter is_create_customer
      (snd (post_invoices_create env upstream oauthClient arrival body))
      = [CreateCustomer payload]
    /\ prop payload "CompanyName" = company body
    /\ prop (prop payload "PrimaryEmailAddr") "Address" = email body
    /\ prop (prop payload "BillAddr") "Line1" = billingAddress body
    /\ prop (prop payload "BillAddr") "City" = billingTown body
    /\ prop (prop payload "BillAddr") "CountrySubDivisionCode"
       = billingState body
    /\ prop (prop payload "BillAddr") "PostalCode" = billingZipCode body
    /\ prop (prop payload "ShipAddr") "Line1" = shippingAddress body
    /\ prop (prop payload "ShipAddr") "City" = shippingTown body
    /\ prop (prop payload "ShipAddr") "CountrySubDivisionCode"
       = shippingState body
    /\ prop (prop payload "ShipAddr") "PostalCode" = shippingZipCode body.
Proof.
  intros Hv Hfind Herr Hnone. exists (newCustomer body).
  split; [|repeat split].
  rewrite post_customer_creates by exact Hv.
  rewrite (findOrCreateCustomer_created _ _ _ _ Hfind Herr Hnone).
  reflexivity.
Qed.

Lemma missing_customer_created_once_witness :
  exists payload,
    filter is_create_customer
      (snd (post_invoices_create Sample.env
              (Sample.shop false Sample.stocked) Sample.signed_in
              Sample.in_order (Sample.order [Sample.a1])))
      = [CreateCustomer payload]
    /\ prop payload "CompanyName" = VStr "Acme"
    /\ prop (prop payload "PrimaryEmailAddr") "Address"
       = VStr "billing@acme.test"
    /\ prop (prop payload "BillAddr") "Line1" = VStr "1 Main St"
    /\ prop (prop payload "BillAddr") "City" = VStr "Springfield"
    /\ prop (prop payload "BillAddr") "CountrySubDivisionCode" = VStr "IL"
    /\ prop (prop payload "BillAddr") "PostalCode" = VStr "62701"
    /\ prop (prop payload "ShipAddr") "Line1" = VStr "2 Dock Rd"
    /\ prop (prop payload "ShipAddr") "City" = VStr "Shelbyville"
    /\ prop (prop payload "ShipAddr") "CountrySubDivisionCode" = VStr "IL"
    /\ prop (prop payload "ShipAddr") "PostalCode" = VStr "62565".
Proof.
  apply (missing_customer_created_once Sample.env
           (Sample.shop false Sample.stocked) Sample.signed_in
           Sample.in_order (Sample.order [Sample.a1]) VNull NoEntities);
    reflexivity.
Defined.

(** C7. When the route has issued an invoice-create call and the platform
    answers it with no error and an invoice, the response is a 201 whose
    JSON body holds that invoice, as it came, under [invoice], next to
    [success: true] and a [message]. *)
Theorem created_invoice_wrapped
    (env : process_env) (upstream : platform) (oauthClient : OAuthClient)
    (arrival : nat -> nat) (body : request_body)
    (payload err invoice : value) :
  In (CreateInvoice payload)
     (snd (post_invoices_create env upstream oauthClient arrival body)) ->
  createInvoice (client env upstream oauthClient) payload = (err, invoice) ->
  truthy err = false ->
  nullish invoice = false ->
  exists wrapped,
    fst (post_invoices_create env upstream oauthClient arrival body)
      = Some (Json 201 wrapped)
    /\ prop wrapped "invoice" = invoice
    /\ prop wrapped "success" = VBool true
    /\ prop wrapped "message" = VStr "Invoice created successfully".
Proof.
  intros Hin Hreply Herr Hinv.
  apply post_create_invoice in Hin. destruct Hin as (Hv & calls & Ha).
  exists (created invoice). split; [|repeat split].
  rewrite (post_valid _ _ _ _ _ Hv), Ha, Hreply. simpl.
  unfold createInvoice_callback. rewrite Herr.
  rewrite get_not_nullish by exact Hinv. reflexivity.
Qed.

Lemma created_invoice_wrapped_witness :
  exists wrapped,
    fst (post_invoices_create Sample.env (Sample.shop true Sample.stocked)
           Sample.signed_in Sample.in_order (Sample.order [Sample.a1]))
      = Some (Json 201 wrapped)
    /\ prop wrapped "invoice" = Sample.invoice_145
    /\ prop wrapped "success" = VBool true
    /\ prop wrapped "message" = VStr "Invoice created successfully".
Proof.
  apply (created_invoice_wrapped Sample.env (Sample.shop true Sample.stocked)
           Sample.signed_in Sample.in_order (Sample.order [Sample.a1])
           (invoiceData Sample.acme (Sample.order [Sample.a1])
              [lineEntry Sample.a1 Sample.widget])
           VNull Sample.invoice_145);
    [simpl; auto | reflexivity | reflexivity | reflexivity].
Defined.

(** C10. With a valid token and an empty [lineItems] array the route
    starts with the customer step and issues no lookup; once the customer
    step has yielded a customer it goes on to the invoice-create call: the
    calls are those of the customer step followed by one invoice-create
    whose [Line] is the empty array, and the response is the one the
    answer to that create decides. *)
Theorem empty_line_items_still_create
    (env : process_env) (upstream : platform) (oauthClient : OAuthClient)
    (arrival : nat -> nat) (body : request_body) :
  isAccessTokenValid oauthClient = true ->
  lineItems body = [] ->
  filter is_find_items
    (snd (post_invoices_create env upstream oauthClient arrival body)) = []
  /\ (exists rest,
        snd (post_invoices_create env upstream oauthClient arrival body)
          = customer_search body :: rest)
  /\ (forall calls customer,
        findOrCreateCustomer (client env upstream oauthClient) body
          = (calls, Ok customer) ->
        nullish customer = false ->
        exists payload,
          snd (post_invoices_create env upstream oauthClient arrival body)
            = calls ++ [CreateInvoice payload]
          /\ prop payload "Line" = VArr []
          /\ prop (prop payload "CustomerRef") "value" = prop customer "Id"
          /\ fst (post_invoices_create env upstream oauthClient arrival body)
             = createInvoice_callback
                 (fst (createInvoice (client env upstream oauthClient)
                         payload))
                 (snd (createInvoice (client env upstream oauthClient)
                         payload))).
Proof.
  intros Hv Hempty.
  destruct (post_calls env upstream oauthClient arrival body Hv)
    as (lookups & tail & Hcalls & Hl & Ht).
  rewrite Hempty in Hl.
  assert (lookups = []) as -> by (destruct Hl; assumption).
  pose proof (findOrCreateCustomer_calls
                (client env upstream oauthClient) body) as Hk.
  repeat split.
  - rewrite Hcalls, !filter_app.
    assert (filter is_find_items tail = []) as ->
      by (destruct Ht as [-> | [invoice ->]]; reflexivity).
    destruct Hk as [-> | ->]; reflexivity.
  - rewrite Hcalls. destruct Hk as [-> | ->]; simpl; eauto.
  - intros calls customer Hc Hn. exists (invoiceData customer body []).
    rewrite (post_valid _ _ _ _ _ Hv), assemble_eq, Hc, Hn.
    unfold settled. rewrite Hempty. simpl. rewrite app_nil_r.
    repeat split.
Qed.

Lemma empty_line_items_still_create_witness :
  filter is_find_items
    (snd (post_invoices_create Sample.env (Sample.shop false Sample.bare)
            Sample.signed_in Sample.in_order (Sample.order []))) = []
  /\ exists payload,
       snd (post_invoices_create Sample.env (Sample.shop false Sample.bare)
              Sample.signed_in Sample.in_order (Sample.order []))
         = [customer_search (Sample.order []);
            customer_create (Sample.order [])] ++ [CreateInvoice payload]
       /\ prop payload "Line" = VArr []
       /\ fst (post_invoices_create Sample.env
                 (Sample.shop false Sample.bare) Sample.signed_in
                 Sample.in_order (Sample.order []))
          = Some (Json 201 (created Sample.invoice_145)).
Proof.
  destruct (empty_line_items_still_create Sample.env
              (Sample.shop false Sample.bare) Sample.signed_in
              Sample.in_order (Sample.order []))
    as (Hnone & _ & Hgo); [reflexivity | reflexivity | ].
  split; [exact Hnone|].
  destruct (Hgo [customer_search (Sample.order []);
                 customer_create (Sample.order [])] Sample.acme)
    as (payload & Hcalls & Hline & _ & Hres); [reflexivity | reflexivity | ].
  exists payload. split; [exact Hcalls | split; [exact Hline|]].
  rewrite Hres. clear Hres.
  reflexivity.
Defined.

(** The numbers of C6, exactly: [parseInt] and [parseFloat] return the
    binary64 that is the integer written. *)
Lemma parsed_numbers :
  parseInt "2" = of_Z 2
  /\ parseFloat "10.00" = of_Z 10
  /\ parseFloat "20.00" = of_Z 20
  /\ of_Z 2 = S754_finite false (2 * 2 ^ 51) (-51)
  /\ of_Z 10 = S754_finite false (10 * 2 ^ 49) (-49).
Proof. repeat split; vm_compute; reflexivity. Qed.

(** C6. For the line items
    [[{sku: "A1", quantity: "2", unitPrice: "10.00", totalAmount: "20.00"}]],
    when the lookup of ["A1"] answers with an item whose [Id] is ["99"]
    (and the customer step has yielded a customer), the route issues an
    invoice-create whose [Line] has one entry, with [Qty] the Number 2,
    [UnitPrice] the Number 10 and [ItemRef.value] the string ["99"]. *)
Theorem line_entry_example
    (env : process_env) (upstream : platform) (oauthClient : OAuthClient)
    (arrival : nat -> nat) (body : request_body)
    (calls : list call) (customer text err : value)
    (found : obj) (others : list value) :
  isAccessTokenValid oauthClient = true ->
  findOrCreateCustomer (client env upstream oauthClient) body
    = (calls, Ok customer) ->
  nullish customer = false ->
  lineItems body
    = [{| sku := "A1"; description := text; quantity := "2";
          unitPrice := "10.00"; totalAmount := "20.00" |}] ->
  findItems (client env upstream oauthClient) 0
    (criterion "Sku" (VStr "A1")) = (err, Entities (VObj found :: others)) ->
  truthy err = false ->
  lookup found "Id" = VStr "99" ->
  exists payload entry,
    In (CreateInvoice payload)
       (snd (post_invoices_create env upstream oauthClient arrival body))
    /\ prop payload "Line" = VArr [entry]
    /\ prop (prop entry "SalesItemLineDetail") "Qty" = VNum (of_Z 2)
    /\ prop (prop entry "SalesItemLineDetail") "UnitPrice" = VNum (of_Z 10)
    /\ prop (prop (prop entry "SalesItemLineDetail") "ItemRef") "value"
       = VStr "99".
Proof.
  intros Hv Hc Hn Hitems Hfind Herr Hid.
  set (item := {| sku := "A1"; description := text; quantity := "2";
                  unitPrice := "10.00"; totalAmount := "20.00" |}) in *.
  exists (invoiceData customer body [lineEntry item (VObj found)]),
         (lineEntry item (VObj found)).
  rewrite (post_valid _ _ _ _ _ Hv), assemble_eq, Hc, Hn.
  unfold settled. rewrite Hitems. simpl.
  rewrite lineItem_eq. unfold sku_reply. simpl sku. rewrite Hfind.
  simpl. rewrite Herr. simpl.
  split; [apply in_or_app; right; left; reflexivity|].
  split; [reflexivity|].
  repeat split. simpl. exact Hid.
Qed.

Lemma line_entry_example_witness :
  exists payload entry,
    In (CreateInvoice payload)
       (snd (post_invoices_create Sample.env
               (Sample.shop true Sample.stocked) Sample.signed_in
               Sample.in_order (Sample.order [Sample.a1])))
    /\ prop payload "Line" = VArr [entry]
    /\ prop (prop entry "SalesItemLineDetail") "Qty" = VNum (of_Z 2)
    /\ prop (prop entry "SalesItemLineDetail") "UnitPrice" = VNum (of_Z 10)
    /\ prop (prop (prop entry "SalesItemLineDetail") "ItemRef") "value"
       = VStr "99".
Proof.
  apply (line_entry_example Sample.env (Sample.shop true Sample.stocked)
           Sample.signed_in Sample.in_order (Sample.order [Sample.a1])
           [customer_search (Sample.order [Sample.a1])] Sample.acme
           (VStr "Widget") VNull
           [("Id", VStr "99"); ("Name", VStr "Widget")] []);
    reflexivity.
Defined.

(** ** Failing lookups *)

Section FailingLookup.

Variable qbo : QuickBooks.
Variable arrival : nat -> nat.
Variable body : request_body.

Lemma lineItem_fails (i : nat) (item : line_item) :
  lookup_fails (sku_reply qbo i item) = true ->
  is_ok (snd (lineItem qbo i item)) = false.
Proof.
  rewrite lineItem_eq. unfold lookup_fails. simpl.
  destruct (truthy (fst (sku_reply qbo i item))); [reflexivity|].
  destruct (truthy (first_item (snd (sku_reply qbo i item))));
    [discriminate | reflexivity].
Qed.

(** One failing lookup is enough for [Promise.all] to reject. *)
Lemma failing_lookup_rejects (i : nat) (item : line_item) :
  nth_error (lineItems body) i = Some item ->
  lookup_fails (sku_reply qbo i item) = true ->
  exists t error,
    first_rejection arrival 0 (settled qbo body) = Some (t, error).
Proof.
  intros Hi Hf.
  destruct (first_rejection arrival 0 (settled qbo body)) as [[t e]|] eqn:Hr;
    [eauto|].
  apply first_rejection_none in Hr. rewrite forallb_forall in Hr.
  assert (In (snd (lineItem qbo i item)) (settled qbo body)) as Hin.
  { apply nth_error_In with (n := i). unfold settled.
    rewrite settled_nth_error, Hi. reflexivity. }
  apply Hr in Hin. rewrite (lineItem_fails _ _ Hf) in Hin. discriminate.
Qed.

(** So the [try] block never gets to an invoice object. *)
Lemma failing_lookup_throws (i : nat) (item : line_item) :
  nth_error (lineItems body) i = Some item ->
  lookup_fails (sku_reply qbo i item) = true ->
  exists calls error, assemble qbo arrival body = (calls, Throw error).
Proof.
  intros Hi Hf. rewrite assemble_eq.
  destruct (findOrCreateCustomer qbo body) as [t [customer|e]]; [|eauto].
  destruct (nullish customer); [eauto|].
  destruct (failing_lookup_rejects _ _ Hi Hf) as (t' & error & ->). eauto.
Qed.

(** When no lookup fails upstream, the rejection reported is the "not
    found" of a line item whose lookup offered no item. *)
Lemma rejection_is_not_found t error :
  (forall j it, nth_error (lineItems body) j = Some it ->
                truthy (fst (sku_reply qbo j it)) = false) ->
  first_rejection arrival 0 (settled qbo body) = Some (t, error) ->
  exists j it,
    nth_error (lineItems body) j = Some it
    /\ unmatched (sku_reply qbo j it) = true
    /\ error = Error (not_found (sku it)).
Proof.
  intros Hup Hr. apply first_rejection_some in Hr.
  destruct Hr as (j & Hj & _). unfold settled in Hj.
  rewrite settled_nth_error in Hj.
  destruct (nth_error (lineItems body) j) as [it|] eqn:Hit; simpl in Hj;
    [|discriminate].
  exists j, it. split; [exact Hit|].
  inversion Hj as [He]. rewrite lineItem_eq in He. simpl in He.
  unfold unmatched. rewrite (Hup _ _ Hit) in *.
  destruct (truthy (first_item (snd (sku_reply qbo j it))));
    inversion He; auto.
Qed.

End FailingLookup.

Lemma unmatched_fails (reply : value * query_result) :
  unmatched reply = true -> lookup_fails reply = true.
Proof.
  unfold unmatched, lookup_fails. destruct (truthy (fst reply)); simpl;
    [discriminate | auto].
Qed.

(** C1 (as amended).  With a valid token, if the lookup of some line
    item's SKU goes through and offers no item, the route answers 500 with
    the body [{error: "Failed to create invoice", details}] and issues no
    invoice-create call.  When moreover the customer step has yielded a
    customer and no lookup fails upstream, [details] is
    ["Item with SKU <sku> not found"] for the SKU of a line item whose
    lookup offered no item. *)
Theorem missing_sku_fails_request
    (env : process_env) (upstream : platform) (oauthClient : OAuthClient)
    (arrival : nat -> nat) (body : request_body)
    (i : nat) (item : line_item) :
  isAccessTokenValid oauthClient = true ->
  nth_error (lineItems body) i = Some item ->
  unmatched (sku_reply (client env upstream oauthClient) i item) = true ->
  (exists details,
     fst (post_invoices_create env upstream oauthClient arrival body)
       = Some (Json 500 (failure details)))
  /\ filter is_create_invoice
       (snd (post_invoices_create env upstream oauthClient arrival body))
     = []
  /\ (forall calls customer,
        findOrCreateCustomer (client env upstream oauthClient) body
          = (calls, Ok customer) ->
        nullish customer = false ->
        (forall j it, nth_error (lineItems body) j = Some it ->
           truthy (fst (sku_reply (client env upstream oauthClient) j it))
             = false) ->
        exists j it,
          nth_error (lineItems body) j = Some it
          /\ unmatched (sku_reply (client env upstream oauthClient) j it)
             = true
          /\ fst (post_invoices_create env upstream oauthClient arrival body)
             = Some (Json 500 (failure (VStr (not_found (sku it)))))
          /\ names_sku
               (fst (post_invoices_create env upstream oauthClient arrival
                       body))
               (sku it)).
Proof.
  intros Hv Hi Hu. apply unmatched_fails in Hu.
  rewrite (post_valid _ _ _ _ _ Hv).
  pose proof (assemble_no_invoice (client env upstream oauthClient)
                arrival body) as Hno.
  destruct (failing_lookup_throws (client env upstream oauthClient) arrival
              body _ _ Hi Hu) as (calls0 & error & Ha).
  rewrite Ha in *. simpl in *. split; [eauto|]. split; [exact Hno|].
  intros calls customer Hc Hn Hup.
  rewrite assemble_eq, Hc, Hn in Ha.
  destruct (first_rejection arrival 0
              (settled (client env upstream oauthClient) body))
    as [[t e]|] eqn:Hr; [|discriminate].
  inversion Ha; subst.
  destruct (rejection_is_not_found _ _ _ _ _ Hup Hr)
    as (j & it & Hit & Hunm & ->).
  exists j, it. repeat split; auto.
  exists (failure (VStr (not_found (sku it)))), (not_found (sku it)).
  repeat split. apply not_found_contains.
Qed.

Lemma missing_sku_fails_request_witness :
  (exists details,
     fst (post_invoices_create Sample.env (Sample.shop false Sample.bare)
            Sample.signed_in Sample.in_order
            (Sample.order [Sample.a1; Sample.zz]))
       = Some (Json 500 (failure details)))
  /\ filter is_create_invoice
       (snd (post_invoices_create Sample.env (Sample.shop false Sample.bare)
               Sample.signed_in Sample.in_order
               (Sample.order [Sample.a1; Sample.zz])))
     = []
  /\ exists j it,
       nth_error [Sample.a1; Sample.zz] j = Some it
       /\ fst (post_invoices_create Sample.env
                 (Sample.shop false Sample.bare) Sample.signed_in
                 Sample.in_order (Sample.order [Sample.a1; Sample.zz]))
          = Some (Json 500 (failure (VStr (not_found (sku it))))).
Proof.
  destruct (missing_sku_fails_request Sample.env
              (Sample.shop false Sample.bare) Sample.signed_in
              Sample.in_order (Sample.order [Sample.a1; Sample.zz])
              1 Sample.zz) as (H500 & Hno & Hname);
    [reflexivity | reflexivity | reflexivity | ].
  split; [exact H500 | split; [exact Hno|]].
  destruct (Hname [customer_search (Sample.order [Sample.a1; Sample.zz]);
                   customer_create (Sample.order [Sample.a1; Sample.zz])]
              Sample.acme)
    as (j & it & Hit & _ & Hout & _);
    [reflexivity | reflexivity | intros; reflexivity | ].
  exists j, it. split; [exact Hit | exact Hout].
Defined.

(** C1 as stated fails: the first line item's lookup fails upstream, the
    second line item's SKU has no match, and the 500 carries the upstream
    message, which names no SKU. *)
Lemma missing_sku_not_named :
  isAccessTokenValid Sample.signed_in = true
  /\ nth_error (lineItems (Sample.order [Sample.a1; Sample.zz])) 1
     = Some Sample.zz
  /\ unmatched
       (sku_reply (client Sample.env (Sample.shop true Sample.flaky)
                     Sample.signed_in) 1 Sample.zz) = true
  /\ fst (post_invoices_create Sample.env (Sample.shop true Sample.flaky)
            Sample.signed_in Sample.in_order
            (Sample.order [Sample.a1; Sample.zz]))
     = Some (Json 500 (failure (VStr "socket hang up")))
  /\ ~ names_sku
         (fst (post_invoices_create Sample.env
                 (Sample.shop true Sample.flaky) Sample.signed_in
                 Sample.in_order (Sample.order [Sample.a1; Sample.zz])))
         "ZZ".
Proof.
  repeat split.
  intros (b & msg & Hr & Hd & Hc).
  vm_compute in Hr. inversion Hr; subst b.
  vm_compute in Hd. inversion Hd; subst msg.
  vm_compute in Hc. discriminate.
Qed.

(** The same when the search for the customer fails upstream: no lookup
    is even issued. *)
Lemma missing_sku_not_reached :
  unmatched
    (sku_reply (client Sample.env Sample.offline Sample.signed_in)
       0 Sample.zz) = true
  /\ post_invoices_create Sample.env Sample.offline Sample.signed_in
       Sample.in_order (Sample.order [Sample.zz])
     = (Some (Json 500 (failure (VStr "socket hang up"))),
        [customer_search (Sample.order [Sample.zz])]).
Proof. split; reflexivity. Qed.

(** C8. With a valid token, when the search offers no customer, the
    customer create goes through and yields a customer, and the lookup of
    some line item fails (upstream, or for want of a match), the calls of
    the request are exactly the search, the create, and one lookup per line
    item: nothing follows the lookups, neither an invoice-create nor a call
    that would undo the create; the response is a 500. *)
Theorem created_customer_not_rolled_back
    (env : process_env) (upstream : platform) (oauthClient : OAuthClient)
    (arrival : nat -> nat) (body : request_body)
    (err err' customer : value) (customers : query_result)
    (i : nat) (item : line_item) :
  isAccessTokenValid oauthClient = true ->
  findCustomers (client env upstream oauthClient)
    (criterion "CompanyName" (company body)) = (err, customers) ->
  truthy err = false ->
  existing_customer customers = None ->
  createCustomer (client env upstream oauthClient) (newCustomer body)
    = (err', customer) ->
  truthy err' = false ->
  nullish customer = false ->
  nth_error (lineItems body) i = Some item ->
  lookup_fails (sku_reply (client env upstream oauthClient) i item) = true ->
  snd (post_invoices_create env upstream oauthClient arrival body)
    = customer_search body :: customer_create body
      :: map sku_lookup (lineItems body)
  /\ exists details,
       fst (post_invoices_create env upstream oauthClient arrival body)
         = Some (Json 500 (failure details)).
Proof.
  intros Hv Hfind Herr Hnone Hcreate Herr' Hn Hi Hf.
  rewrite (post_valid _ _ _ _ _ Hv), assemble_eq.
  rewrite (findOrCreateCustomer_created _ _ _ _ Hfind Herr Hnone).
  rewrite Hcreate. simpl. rewrite Herr', Hn.
  destruct (failing_lookup_rejects _ arrival _ _ _ Hi Hf)
    as (t & error & ->).
  simpl. eauto.
Qed.

Lemma created_customer_not_rolled_back_witness :
  snd (post_invoices_create Sample.env (Sample.shop false Sample.flaky)
         Sample.signed_in Sample.in_order
         (Sample.order [Sample.a1; Sample.zz]))
    = customer_search (Sample.order [Sample.a1; Sample.zz])
      :: customer_create (Sample.order [Sample.a1; Sample.zz])
      :: map sku_lookup [Sample.a1; Sample.zz]
  /\ exists details,
       fst (post_invoices_create Sample.env (Sample.shop false Sample.flaky)
              Sample.signed_in Sample.in_order
              (Sample.order [Sample.a1; Sample.zz]))
         = Some (Json 500 (failure details)).
Proof.
  apply (created_customer_not_rolled_back Sample.env
           (Sample.shop false Sample.flaky) Sample.signed_in Sample.in_order
           (Sample.order [Sample.a1; Sample.zz])
           VNull VNull Sample.acme NoEntities 1 Sample.zz);
    reflexivity.
Defined.

(** ** The entry points *)

(** What the [catch] of the list route does with a thrown error. *)
Lemma list_thrown (env : process_env) (upstream : platform)
    (oauthClient : OAuthClient) (error : obj) :
  isAccessTokenValid oauthClient = true ->
  findInvoices (client env upstream oauthClient)
    (VObj [("fetchAll", VBool true)]) = Thrown error ->
  get_api_invoices env upstream oauthClient
    = (Some (invoices_catch error),
       [FindInvoices (VObj [("fetchAll", VBool true)])]).
Proof.
  intros Hv Hf. unfold get_api_invoices. rewrite Hv. simpl.
  fold (client env upstream oauthClient). rewrite Hf. reflexivity.
Qed.

(** What the callback does with an error: a 500 with the fixed body,
    whatever the error is. *)
Lemma list_callback_error (env : process_env) (upstream : platform)
    (oauthClient : OAuthClient) (err invoices : value) :
  isAccessTokenValid oauthClient = true ->
  findInvoices (client env upstream oauthClient)
    (VObj [("fetchAll", VBool true)]) = Called err invoices ->
  truthy err = true ->
  get_api_invoices env upstream oauthClient
    = (Some (Json 500 fetch_failure),
       [FindInvoices (VObj [("fetchAll", VBool true)])]).
Proof.
  intros Hv Hf He. unfold get_api_invoices. rewrite Hv. simpl.
  fold (client env upstream oauthClient). rewrite Hf.
  unfold findInvoices_callback. rewrite He. reflexivity.
Qed.

(** C5, on the code.  The token is valid and the list call fails with an
    error whose [authResponse.status] is 401.  Thrown, the error leads to a
    redirect to [/auth]; delivered to the callback, which is how the client
    reports upstream failures, it leads to a 500 with the fixed body
    [{error: "Failed to fetch invoices"}]. *)
Theorem unauthorized_list_answers_500 :
  isAccessTokenValid Sample.signed_in = true
  /\ strict_eq_num
       (prop (prop (VObj Sample.unauthorized) "authResponse") "status")
       (of_Z 401) = true
  /\ findInvoices (client Sample.env (Sample.revoked false) Sample.signed_in)
       Sample.fetch_all = Called (VObj Sample.unauthorized) VUndef
  /\ get_api_invoices Sample.env (Sample.revoked false) Sample.signed_in
     = (Some (Json 500 fetch_failure), [FindInvoices Sample.fetch_all])
  /\ get_api_invoices Sample.env (Sample.revoked true) Sample.signed_in
     = (Some (Redirect "/auth"), [FindInvoices Sample.fetch_all]).
Proof. repeat split. Qed.

(** C9 (as amended).  In both entry points, [GET /callback] itself
    replaces the stored token only after a successful exchange.  When the
    exchange is rejected the response is a 500 with
    [error: "Authentication failed"], no [setToken] call is made and the
    helper is as [createToken] left it, so the token record is unchanged
    whenever [createToken] leaves it unchanged; a [setToken] call, when
    there is one, carries the token of a resolved exchange. *)
Theorem token_replaced_only_on_success
    (v : variant)
    (createToken : OAuthClient -> string -> exchange * OAuthClient)
    (oauthClient : OAuthClient) (url : string) :
  (forall error,
     fst (createToken oauthClient url) = Rejected error ->
     (exists body,
        fst (fst (get_callback v createToken oauthClient url))
          = Json 500 body
        /\ prop body "error" = VStr "Authentication failed")
     /\ snd (get_callback v createToken oauthClient url) = [CreateToken url]
     /\ snd (fst (get_callback v createToken oauthClient url))
        = snd (createToken oauthClient url)
     /\ (token (snd (createToken oauthClient url)) = token oauthClient ->
         token (snd (fst (get_callback v createToken oauthClient url)))
           = token oauthClient))
  /\ (forall t,
        In (SetToken t) (snd (get_callback v createToken oauthClient url)) ->
        fst (createToken oauthClient url) = Resolved (Some t)
        /\ snd (fst (get_callback v createToken oauthClient url))
           = setToken t (snd (createToken oauthClient url)))
  /\ (snd (fst (get_callback v createToken oauthClient url))
        = snd (createToken oauthClient url)
      \/ exists t, fst (createToken oauthClient url) = Resolved (Some t)).
Proof.
  unfold get_callback.
  destruct (createToken oauthClient url) as [[[token|]|error] helper] eqn:He;
    simpl.
  - split; [discriminate|]. split; [|eauto].
    intros t [H|[H|[]]]; inversion H; subst. auto.
  - split; [discriminate|]. split; [|auto].
    intros t [H|[]]; inversion H.
  - split.
    + intros error' _. split; [|auto].
      destruct v; simpl; eauto.
    + split; [|auto]. intros t [H|[]]; inversion H.
Qed.

Lemma token_replaced_only_on_success_witness :
  (exists body,
     fst (fst (get_callback Index (Cases.refuses Sample.denied)
                 Sample.signed_in Sample.callback_url))
       = Json 500 body
     /\ prop body "error" = VStr "Authentication failed")
  /\ snd (get_callback Index (Cases.refuses Sample.denied)
            Sample.signed_in Sample.callback_url)
     = [CreateToken Sample.callback_url]
  /\ snd (fst (get_callback Index (Cases.refuses Sample.denied)
                 Sample.signed_in Sample.callback_url))
     = Sample.signed_in
  /\ token (snd (fst (get_callback Index (Cases.refuses Sample.denied)
                        Sample.signed_in Sample.callback_url)))
     = Sample.stored.
Proof.
  destruct (token_replaced_only_on_success Index
              (Cases.refuses Sample.denied) Sample.signed_in
              Sample.callback_url) as (Hrej & _).
  destruct (Hrej Sample.denied eq_refl) as (H500 & Hcalls & Hleft & Hsame).
  split; [exact H500|]. split; [exact Hcalls|]. split; [exact Hleft|].
  apply Hsame. reflexivity.
Defined.

(** C9 as stated fails once [createToken] is the helper's own method: a
    helper that notes the realm of the callback in its record before the
    exchange leaves the record changed although the exchange was refused,
    the response is the 500 and no [setToken] call was made. *)
Lemma rejected_exchange_may_change_record :
  fst (Cases.notes_realm (VStr "4620816365") Sample.denied
         Sample.signed_out Sample.callback_url) = Rejected Sample.denied
  /\ fst (fst (get_callback Index
                 (Cases.notes_realm (VStr "4620816365") Sample.denied)
                 Sample.signed_out Sample.callback_url))
     = Json 500 (VObj [("error", VStr "Authentication failed");
                       ("details", VStr "invalid_grant")])
  /\ snd (get_callback Index
            (Cases.notes_realm (VStr "4620816365") Sample.denied)
            Sample.signed_out Sample.callback_url)
     = [CreateToken Sample.callback_url]
  /\ token (snd (fst (get_callback Index
                        (Cases.notes_realm (VStr "4620816365")
                           Sample.denied)
                        Sample.signed_out Sample.callback_url)))
     <> token Sample.signed_out.
Proof. repeat split. simpl. discriminate. Qed.

(** A resolved exchange, in both entry points: the token is stored, and
    the response is the JSON of one and the redirect of the other. *)
Example callback_stores_token :
  get_callback Index (Cases.grants Sample.fresh)
    Sample.signed_out Sample.callback_url
    = (Json 200 (authenticated Sample.fresh),
       setToken Sample.fresh Sample.signed_out,
       [CreateToken Sample.callback_url; SetToken Sample.fresh])
  /\ get_callback Standalone (Cases.grants Sample.fresh)
       Sample.signed_out Sample.callback_url
     = (Redirect "/api/invoices",
        setToken Sample.fresh Sample.signed_out,
        [CreateToken Sample.callback_url; SetToken Sample.fresh])
  /\ token (setToken Sample.fresh Sample.signed_out) = Sample.fresh.
Proof. repeat split. Qed.

(** ** More on the create route *)

Section CreateRoute.

Variable env : process_env.
Variable upstream : platform.
Variable oauthClient : OAuthClient.
Variable arrival : nat -> nat.
Variable body : request_body.

(** The invoice object of an invoice-create call is built from the
    request body, a customer and line entries. *)
Lemma created_payload payload :
  In (CreateInvoice payload)
     (snd (post_invoices_create env upstream oauthClient arrival body)) ->
  exists calls customer,
    findOrCreateCustomer (client env upstream oauthClient) body
      = (calls, Ok customer)
    /\ nullish customer = false
    /\ first_rejection arrival 0
         (settled (client env upstream oauthClient) body) = None
    /\ payload
       = invoiceData customer body
           (fulfilled (settled (client env upstream oauthClient) body)).
Proof.
  intros Hin. apply post_create_invoice in Hin.
  destruct Hin as (_ & calls & Ha). rewrite assemble_eq in Ha.
  destruct (findOrCreateCustomer (client env upstream oauthClient) body)
    as [t [customer|e]]; [|discriminate].
  destruct (nullish customer) eqn:Hn; [discriminate|].
  destruct (first_rejection arrival 0
              (settled (client env upstream oauthClient) body))
    as [[t' e]|]; inversion Ha. eauto 6.
Qed.

(** When the customer step throws, the request ends there. *)
Lemma customer_step_throws calls error :
  isAccessTokenValid oauthClient = true ->
  findOrCreateCustomer (client env upstream oauthClient) body
    = (calls, Throw error) ->
  post_invoices_create env upstream oauthClient arrival body
    = (Some (Json 500 (failure (prop error "message"))), calls).
Proof.
  intros Hv Hc. rewrite (post_valid _ _ _ _ _ Hv), assemble_eq, Hc.
  reflexivity.
Qed.

End CreateRoute.

(** X1. With a valid token, when the customer search fails upstream, the
    route answers 500 with the upstream error's [message] as [details],
    and the search is the only call of the request. *)
Theorem customer_search_failure
    (env : process_env) (upstream : platform) (oauthClient : OAuthClient)
    (arrival : nat -> nat) (body : request_body)
    (err : value) (customers : query_result) :
  isAccessTokenValid oauthClient = true ->
  findCustomers (client env upstream oauthClient)
    (criterion "CompanyName" (company body)) = (err, customers) ->
  truthy err = true ->
  post_invoices_create env upstream oauthClient arrival body
    = (Some (Json 500 (failure (prop err "message"))),
       [customer_search body]).
Proof.
  intros Hv Hfind Herr. apply customer_step_throws; [exact Hv|].
  eapply findOrCreateCustomer_error; eauto.
Qed.

Lemma customer_search_failure_witness :
  post_invoices_create Sample.env Sample.offline Sample.signed_in
    Sample.in_order (Sample.order [Sample.a1])
    = (Some (Json 500 (failure (VStr "socket hang up"))),
       [customer_search (Sample.order [Sample.a1])]).
Proof.
  apply (customer_search_failure Sample.env Sample.offline Sample.signed_in
           Sample.in_order (Sample.order [Sample.a1])
           Sample.socket_error NoBody); reflexivity.
Defined.

(** X2. With a valid token, when the search offers no customer and the
    customer create fails upstream, the route answers 500 with that
    error's [message]; the calls are the search and the create, and no
    lookup or invoice-create follows. *)
Theorem customer_create_failure
    (env : process_env) (upstream : platform) (oauthClient : OAuthClient)
    (arrival : nat -> nat) (body : request_body)
    (err err' customer : value) (customers : query_result) :
  isAccessTokenValid oauthClient = true ->
  findCustomers (client env upstream oauthClient)
    (criterion "CompanyName" (company body)) = (err, customers) ->
  truthy err = false ->
  existing_customer customers = None ->
  createCustomer (client env upstream oauthClient) (newCustomer body)
    = (err', customer) ->
  truthy err' = true ->
  post_invoices_create env upstream oauthClient arrival body
    = (Some (Json 500 (failure (prop err' "message"))),
       [customer_search body; customer_create body]).
Proof.
  intros Hv Hfind Herr Hnone Hcreate Herr'.
  apply customer_step_throws; [exact Hv|].
  rewrite (findOrCreateCustomer_created _ _ _ _ Hfind Herr Hnone).
  rewrite Hcreate. simpl. rewrite Herr'. reflexivity.
Qed.

Lemma customer_create_failure_witness :
  post_invoices_create Sample.env Cases.no_create Sample.signed_in
    Sample.in_order (Sample.order [Sample.a1])
    = (Some (Json 500 (failure (VStr "Duplicate Name Exists Error"))),
       [customer_search (Sample.order [Sample.a1]);
        customer_create (Sample.order [Sample.a1])]).
Proof.
  apply (customer_create_failure Sample.env Cases.no_create
           Sample.signed_in Sample.in_order (Sample.order [Sample.a1])
           VNull Cases.duplicate_name VUndef NoEntities); reflexivity.
Defined.

(** X3. With a valid token, when the customer step yields [undefined] or
    [null] (a create answered with neither an error nor a customer, or a
    search whose first entry is [null]), the read of [customer.Id] throws:
    the route answers 500 with the TypeError's message and issues neither
    a lookup nor an invoice-create. *)
Theorem absent_customer_fails
    (env : process_env) (upstream : platform) (oauthClient : OAuthClient)
    (arrival : nat -> nat) (body : request_body)
    (calls : list call) (customer : value) :
  isAccessTokenValid oauthClient = true ->
  findOrCreateCustomer (client env upstream oauthClient) body
    = (calls, Ok customer) ->
  nullish customer = true ->
  post_invoices_create env upstream oauthClient arrival body
    = (Some (Json 500
         (failure (VStr ("Cannot read properties of "
                         ++ show_nullish customer ++ " (reading 'Id')")))),
       calls)
  /\ filter is_find_items calls = []
  /\ filter is_create_invoice calls = [].
Proof.
  intros Hv Hc Hn.
  rewrite (post_valid _ _ _ _ _ Hv), assemble_eq, Hc, Hn.
  split; [reflexivity|].
  pose proof (findOrCreateCustomer_calls
                (client env upstream oauthClient) body) as Hk.
  rewrite Hc in Hk. simpl in Hk. destruct Hk as [-> | ->]; split; reflexivity.
Qed.

Lemma absent_customer_fails_witness :
  post_invoices_create Sample.env Cases.ghost Sample.signed_in
    Sample.in_order (Sample.order [Sample.a1])
    = (Some (Json 500
         (failure (VStr "Cannot read properties of undefined (reading 'Id')"))),
       [customer_search (Sample.order [Sample.a1]);
        customer_create (Sample.order [Sample.a1])]).
Proof.
  apply (absent_customer_fails Sample.env Cases.ghost Sample.signed_in
           Sample.in_order (Sample.order [Sample.a1])
           [customer_search (Sample.order [Sample.a1]);
            customer_create (Sample.order [Sample.a1])] VUndef);
    reflexivity.
Defined.

(** X4. With a valid token, when the search offers no customer and the
    create goes through, an invoice-create call, if one is issued, refers
    to the [Id] of the customer the create answered with. *)
Theorem created_customer_referenced
    (env : process_env) (upstream : platform) (oauthClient : OAuthClient)
    (arrival : nat -> nat) (body : request_body)
    (err err' customer : value) (customers : query_result) :
  isAccessTokenValid oauthClient = true ->
  findCustomers (client env upstream oauthClient)
    (criterion "CompanyName" (company body)) = (err, customers) ->
  truthy err = false ->
  existing_customer customers = None ->
  createCustomer (client env upstream oauthClient) (newCustomer body)
    = (err', customer) ->
  truthy err' = false ->
  forall payload,
    In (CreateInvoice payload)
       (snd (post_invoices_create env upstream oauthClient arrival body)) ->
    prop (prop payload "CustomerRef") "value" = prop customer "Id".
Proof.
  intros Hv Hfind Herr Hnone Hcreate Herr' payload Hin.
  apply created_payload in Hin.
  destruct Hin as (calls & c & Hc & _ & _ & ->).
  rewrite (findOrCreateCustomer_created _ _ _ _ Hfind Herr Hnone) in Hc.
  rewrite Hcreate in Hc. simpl in Hc. rewrite Herr' in Hc.
  inversion Hc; subst. reflexivity.
Qed.

Lemma created_customer_referenced_witness :
  prop (prop (invoiceData Sample.acme (Sample.order [Sample.a1])
                [lineEntry Sample.a1 Sample.widget]) "CustomerRef") "value"
    = VStr "7".
Proof.
  apply (created_customer_referenced Sample.env
           (Sample.shop false Sample.stocked) Sample.signed_in
           Sample.in_order (Sample.order [Sample.a1])
           VNull VNull Sample.acme NoEntities);
    [reflexivity | reflexivity | reflexivity | reflexivity | reflexivity
    | reflexivity | simpl; auto].
Defined.

(** X5. When the platform refuses the invoice-create the route has
    issued, the response is a 500 with the upstream error's [message] as
    [details]. *)
Theorem invoice_create_failure
    (env : process_env) (upstream : platform) (oauthClient : OAuthClient)
    (arrival : nat -> nat) (body : request_body)
    (payload err invoice : value) :
  In (CreateInvoice payload)
     (snd (post_invoices_create env upstream oauthClient arrival body)) ->
  createInvoice (client env upstream oauthClient) payload = (err, invoice) ->
  truthy err = true ->
  fst (post_invoices_create env upstream oauthClient arrival body)
    = Some (Json 500 (failure (prop err "message"))).
Proof.
  intros Hin Hreply Herr.
  apply post_create_invoice in Hin. destruct Hin as (Hv & calls & Ha).
  rewrite (post_valid _ _ _ _ _ Hv), Ha, Hreply. simpl.
  unfold createInvoice_callback. rewrite Herr. reflexivity.
Qed.

Lemma invoice_create_failure_witness :
  fst (post_invoices_create Sample.env Cases.no_invoice Sample.signed_in
         Sample.in_order (Sample.order [Sample.a1]))
    = Some (Json 500 (failure (VStr "Required param missing"))).
Proof.
  apply (invoice_create_failure Sample.env Cases.no_invoice Sample.signed_in
           Sample.in_order (Sample.order [Sample.a1])
           (invoiceData Sample.acme (Sample.order [Sample.a1])
              [lineEntry Sample.a1 Sample.widget])
           Cases.validation_fault VUndef);
    [simpl; auto | reflexivity | reflexivity].
Defined.


(** ** Shape of the responses and of the trace *)

(** X7. A 201 is sent only after an invoice-create call: it is then the
    last call of the request, the platform answered it without error, and
    the body of the 201 wraps the invoice of that answer. *)
Theorem created_only_after_invoice_call
    (env : process_env) (upstream : platform) (oauthClient : OAuthClient)
    (arrival : nat -> nat) (body : request_body) (sent : value) :
  fst (post_invoices_create env upstream oauthClient arrival body)
    = Some (Json 201 sent) ->
  exists calls payload,
    snd (post_invoices_create env upstream oauthClient arrival body)
      = calls ++ [CreateInvoice payload]
    /\ truthy (fst (createInvoice (client env upstream oauthClient) payload))
       = false
    /\ sent
       = created (snd (createInvoice (client env upstream oauthClient)
                         payload)).
Proof.
  destruct (isAccessTokenValid oauthClient) eqn:Hv.
  - rewrite (post_valid _ _ _ _ _ Hv).
    destruct (assemble (client env upstream oauthClient) arrival body)
      as [calls [payload|error]]; simpl; [|discriminate].
    unfold createInvoice_callback.
    destruct (truthy (fst (createInvoice (client env upstream oauthClient)
                             payload))) eqn:Herr; [discriminate|].
    destruct (get (snd (createInvoice (client env upstream oauthClient)
                          payload)) "Id"); [|discriminate].
    intros H; inversion H. eauto.
  - unfold post_invoices_create. rewrite Hv. simpl. discriminate.
Qed.

Lemma created_only_after_invoice_call_witness :
  exists calls payload,
    snd (post_invoices_create Sample.env (Sample.shop true Sample.stocked)
           Sample.signed_in Sample.in_order (Sample.order [Sample.a1]))
      = calls ++ [CreateInvoice payload]
    /\ truthy (fst (createInvoice
                      (client Sample.env (Sample.shop true Sample.stocked)
                         Sample.signed_in) payload)) = false
    /\ created Sample.invoice_145
       = created (snd (createInvoice
                         (client Sample.env (Sample.shop true Sample.stocked)
                            Sample.signed_in) payload)).
Proof.
  apply (created_only_after_invoice_call Sample.env
           (Sample.shop true Sample.stocked) Sample.signed_in
           Sample.in_order (Sample.order [Sample.a1])
           (created Sample.invoice_145)).
  reflexivity.
Defined.


(** X9. Whatever the request, the token and the platform, a request
    issues at most one customer-create and at most one invoice-create;
    the invoice-create, when there is one, is the last call, and with a
    valid token the customer search is the first. *)
Theorem create_route_calls
    (env : process_env) (upstream : platform) (oauthClient : OAuthClient)
    (arrival : nat -> nat) (body : request_body) :
  (List.length
     (filter is_create_customer
        (snd (post_invoices_create env upstream oauthClient arrival body)))
   <= 1)%nat
  /\ (List.length
        (filter is_create_invoice
           (snd (post_invoices_create env upstream oauthClient arrival
                   body)))
      <= 1)%nat
  /\ (forall payload,
        In (CreateInvoice payload)
           (snd (post_invoices_create env upstream oauthClient arrival body))
        -> exists calls,
             snd (post_invoices_create env upstream oauthClient arrival
                    body)
               = calls ++ [CreateInvoice payload]
             /\ filter is_create_invoice calls = [])
  /\ (isAccessTokenValid oauthClient = true ->
      exists rest,
        snd (post_invoices_create env upstream oauthClient arrival body)
          = customer_search body :: rest)
  /\ (isAccessTokenValid oauthClient = false ->
      snd (post_invoices_create env upstream oauthClient arrival body) = []).
Proof.
  destruct (isAccessTokenValid oauthClient) eqn:Hv.
  - pose proof (post_customer_creates env upstream oauthClient arrival body
                  Hv) as Hcc.
    pose proof (findOrCreateCustomer_calls
                  (client env upstream oauthClient) body) as Hk.
    pose proof (assemble_no_invoice (client env upstream oauthClient)
                  arrival body) as Hno.
    pose proof (assemble_calls (client env upstream oauthClient)
                  arrival body) as (lookups & Hcalls & _).
    rewrite Hcc. clear Hcc.
    rewrite (post_valid _ _ _ _ _ Hv) in *.
    destruct (assemble (client env upstream oauthClient) arrival body)
      as [calls [invoice|error]]; simpl in *.
    + repeat split.
      * destruct Hk as [-> | ->]; simpl; lia.
      * rewrite filter_app, Hno. simpl. lia.
      * intros payload Hin. apply in_app_or in Hin.
        destruct Hin as [Hin|[Heq|[]]].
        -- not_among_calls Hin Hno.
        -- inversion Heq; subst. eauto.
      * rewrite Hcalls. destruct Hk as [-> | ->]; simpl; eauto.
      * discriminate.
    + repeat split.
      * destruct Hk as [-> | ->]; simpl; lia.
      * rewrite Hno. simpl. lia.
      * intros payload Hin. not_among_calls Hin Hno.
      * rewrite Hcalls. destruct Hk as [-> | ->]; simpl; eauto.
      * discriminate.
  - unfold post_invoices_create. rewrite Hv. simpl.
    repeat split; try lia; try discriminate.
Qed.

(** X10. With a valid token, once the customer step has yielded a
    customer, the lookups issued are exactly one per line item, in the
    order of the line items and duplicates included, whatever the lookups
    answer. *)
Theorem one_lookup_per_line_item
    (env : process_env) (upstream : platform) (oauthClient : OAuthClient)
    (arrival : nat -> nat) (body : request_body)
    (calls : list call) (customer : value) :
  isAccessTokenValid oauthClient = true ->
  findOrCreateCustomer (client env upstream oauthClient) body
    = (calls, Ok customer) ->
  nullish customer = false ->
  filter is_find_items
    (snd (post_invoices_create env upstream oauthClient arrival body))
    = map sku_lookup (lineItems body)
  /\ List.length
       (filter is_find_items
          (snd (post_invoices_create env upstream oauthClient arrival body)))
     = List.length (lineItems body).
Proof.
  intros Hv Hc Hn.
  assert (filter is_find_items
            (snd (post_invoices_create env upstream oauthClient arrival body))
          = map sku_lookup (lineItems body)) as Heq.
  { pose proof (findOrCreateCustomer_calls
                  (client env upstream oauthClient) body) as Hk.
    rewrite Hc in Hk. simpl in Hk.
    assert (filter is_find_items calls = []) as Hnone
      by (destruct Hk as [-> | ->]; reflexivity).
    assert (forall items, filter is_find_items (map sku_lookup items)
                          = map sku_lookup items) as Hall
      by (induction items; simpl; congruence).
    rewrite (post_valid _ _ _ _ _ Hv), assemble_eq, Hc, Hn.
    destruct (first_rejection arrival 0
                (settled (client env upstream oauthClient) body))
      as [[t e]|]; simpl; rewrite ?filter_app, Hnone, Hall; simpl;
      rewrite ?app_nil_r; reflexivity. }
  split; [exact Heq|]. rewrite Heq. apply length_map.
Qed.

Lemma one_lookup_per_line_item_witness :
  filter is_find_items
    (snd (post_invoices_create Sample.env (Sample.shop true Sample.flaky)
            Sample.signed_in Sample.in_order
            (Sample.order [Sample.a1; Sample.zz; Sample.a1])))
    = [sku_lookup Sample.a1; sku_lookup Sample.zz; sku_lookup Sample.a1]
  /\ List.length
       (filter is_find_items
          (snd (post_invoices_create Sample.env
                  (Sample.shop true Sample.flaky) Sample.signed_in
                  Sample.in_order
                  (Sample.order [Sample.a1; Sample.zz; Sample.a1]))))
     = 3%nat.
Proof.
  apply (one_lookup_per_line_item Sample.env (Sample.shop true Sample.flaky)
           Sample.signed_in Sample.in_order
           (Sample.order [Sample.a1; Sample.zz; Sample.a1])
           [customer_search (Sample.order [Sample.a1; Sample.zz; Sample.a1])]
           Sample.acme); reflexivity.
Defined.

(** X11. The invoice object of an invoice-create call takes its email,
    ship date and both addresses from the request body, whoever the
    customer is: nothing of a reused customer's record flows into them. *)
Theorem invoice_fields_from_request
    (env : process_env) (upstream : platform) (oauthClient : OAuthClient)
    (arrival : nat -> nat) (body : request_body) (payload : value) :
  In (CreateInvoice payload)
     (snd (post_invoices_create env upstream oauthClient arrival body)) ->
  prop (prop payload "BillEmail") "Address" = email body
  /\ prop payload "ShipDate" = shippingDate body
  /\ prop payload "BillAddr"
     = VObj [("Line1", billingAddress body); ("City", billingTown body);
             ("CountrySubDivisionCode", billingState body);
             ("PostalCode", billingZipCode body)]
  /\ prop payload "ShipAddr"
     = VObj [("Line1", shippingAddress body); ("City", shippingTown body);
             ("CountrySubDivisionCode", shippingState body);
             ("PostalCode", shippingZipCode body)].
Proof.
  intros Hin. apply created_payload in Hin.
  destruct Hin as (calls & customer & _ & _ & _ & ->). repeat split.
Qed.

Lemma invoice_fields_from_request_witness :
  prop (prop (invoiceData Sample.acme (Sample.order [Sample.a1])
                [lineEntry Sample.a1 Sample.widget]) "BillEmail") "Address"
    = VStr "billing@acme.test"
  /\ prop (invoiceData Sample.acme (Sample.order [Sample.a1])
             [lineEntry Sample.a1 Sample.widget]) "ShipDate"
     = VStr "2024-05-01"
  /\ prop (invoiceData Sample.acme (Sample.order [Sample.a1])
             [lineEntry Sample.a1 Sample.widget]) "BillAddr"
     = VObj [("Line1", VStr "1 Main St"); ("City", VStr "Springfield");
             ("CountrySubDivisionCode", VStr "IL");
             ("PostalCode", VStr "62701")]
  /\ prop (invoiceData Sample.acme (Sample.order [Sample.a1])
             [lineEntry Sample.a1 Sample.widget]) "ShipAddr"
     = VObj [("Line1", VStr "2 Dock Rd"); ("City", VStr "Shelbyville");
             ("CountrySubDivisionCode", VStr "IL");
             ("PostalCode", VStr "62565")].
Proof.
  apply (invoice_fields_from_request Sample.env
           (Sample.shop true Sample.stocked) Sample.signed_in
           Sample.in_order (Sample.order [Sample.a1])).
  simpl; auto.
Defined.

(** ** The line items as a whole *)

Section AllLines.

Variable qbo : QuickBooks.

(** When every lookup from position [i] on offers an item, every promise
    fulfils with the entry of its line item. *)
Lemma all_matched (i : nat) (items : list line_item) :
  (forall j item, nth_error items j = Some item ->
     lookup_fails (sku_reply qbo (i + j) item) = false) ->
  map snd (mapi (lineItem qbo) i items) = map Ok (entries qbo i items).
Proof.
  revert i; induction items as [|item items IH]; intros i Hall; simpl.
  - reflexivity.
  - rewrite lineItem_eq. simpl.
    pose proof (Hall 0%nat item eq_refl) as H0.
    rewrite Nat.add_0_r in H0. unfold lookup_fails in H0.
    apply orb_false_iff in H0. destruct H0 as [He Hf].
    apply negb_false_iff in Hf. rewrite He, Hf. f_equal.
    apply IH. intros j it Hj.
    specialize (Hall (S j) it Hj). rewrite Nat.add_succ_r in Hall.
    exact Hall.
Qed.

Lemma fulfilled_map_Ok {A} (l : list A) : fulfilled (map Ok l) = l.
Proof. induction l; simpl; congruence. Qed.

Lemma all_Ok {A} (l : list A) : forallb is_ok (map Ok l) = true.
Proof. induction l; simpl; auto. Qed.

Lemma entries_length (i : nat) (items : list line_item) :
  List.length (entries qbo i items) = List.length items.
Proof.
  unfold entries. revert i; induction items; intros i; simpl; auto.
Qed.

(** Whether [Promise.all] rejects does not depend on the order in which
    the answers arrive. *)
Lemma rejects_whenever {A} (arrival arrival' : nat -> nat) (i i' : nat)
    (rs : list (result A)) :
  first_rejection arrival i rs = None ->
  first_rejection arrival' i' rs = None.
Proof.
  intros H. apply first_rejection_none. apply first_rejection_none in H.
  exact H.
Qed.

End AllLines.

(** C2. With a valid token, when the search by company name answers with
    at least one customer, the route issues no customer-create call: its
    calls start with the search, the customer step yields the first
    customer of the answer as it came, and an invoice-create call refers
    to that customer's [Id].  Such a call is issued once every line item's
    lookup offers an item: the calls are then the search, one lookup per
    line item and the invoice-create with that reference, and the answer
    to it decides the response. *)
Theorem existing_customer_reused
    (env : process_env) (upstream : platform) (oauthClient : OAuthClient)
    (arrival : nat -> nat) (body : request_body)
    (err customer : value) (others : list value) :
  isAccessTokenValid oauthClient = true ->
  findCustomers (client env upstream oauthClient)
    (criterion "CompanyName" (company body))
    = (err, Entities (customer :: others)) ->
  truthy err = false ->
  filter is_create_customer
    (snd (post_invoices_create env upstream oauthClient arrival body)) = []
  /\ (exists rest,
        snd (post_invoices_create env upstream oauthClient arrival body)
          = customer_search body :: rest)
  /\ findOrCreateCustomer (client env upstream oauthClient) body
     = ([customer_search body], Ok customer)
  /\ (forall invoice,
        In (CreateInvoice invoice)
           (snd (post_invoices_create env upstream oauthClient arrival body))
        -> prop (prop invoice "CustomerRef") "value" = prop customer "Id")
  /\ (nullish customer = false ->
      (forall j item, nth_error (lineItems body) j = Some item ->
         lookup_fails (sku_reply (client env upstream oauthClient) j item)
           = false) ->
      exists invoice,
        snd (post_invoices_create env upstream oauthClient arrival body)
          = customer_search body
            :: map sku_lookup (lineItems body) ++ [CreateInvoice invoice]
        /\ prop (prop invoice "CustomerRef") "value" = prop customer "Id"
        /\ fst (post_invoices_create env upstream oauthClient arrival body)
           = createInvoice_callback
               (fst (createInvoice (client env upstream oauthClient)
                       invoice))
               (snd (createInvoice (client env upstream oauthClient)
                       invoice))).
Proof.
  intros Hv Hfind Herr.
  assert (findOrCreateCustomer (client env upstream oauthClient) body
          = ([customer_search body], Ok customer)) as Hc
    by (eapply findOrCreateCustomer_found; eauto).
  split; [|split; [|split; [|split]]].
  - rewrite post_customer_creates by exact Hv. rewrite Hc. reflexivity.
  - destruct (post_calls env upstream oauthClient arrival body Hv)
      as (lookups & tail & -> & _). rewrite Hc. simpl. eauto.
  - exact Hc.
  - intros invoice Hin.
    apply post_create_invoice in Hin. destruct Hin as (_ & calls & Ha).
    rewrite assemble_eq, Hc in Ha.
    destruct (nullish customer); [discriminate|].
    destruct (first_rejection arrival 0
                (settled (client env upstream oauthClient) body))
      as [[t e]|]; inversion Ha. reflexivity.
  - intros Hn Hall.
    exists (invoiceData customer body
              (entries (client env upstream oauthClient) 0
                 (lineItems body))).
    rewrite (post_valid _ _ _ _ _ Hv), assemble_eq, Hc, Hn.
    unfold settled. rewrite (all_matched _ 0 _ Hall).
    pose proof (all_Ok (entries (client env upstream oauthClient) 0
                          (lineItems body))) as Hok.
    apply (first_rejection_none arrival 0%nat) in Hok. rewrite Hok.
    rewrite fulfilled_map_Ok. simpl.
    repeat split.
Qed.

Lemma existing_customer_reused_witness :
  filter is_create_customer
    (snd (post_invoices_create Sample.env (Sample.shop true Sample.stocked)
            Sample.signed_in Sample.in_order (Sample.order [Sample.a1])))
    = []
  /\ findOrCreateCustomer
       (client Sample.env (Sample.shop true Sample.stocked) Sample.signed_in)
       (Sample.order [Sample.a1])
     = ([customer_search (Sample.order [Sample.a1])], Ok Sample.acme)
  /\ exists invoice,
       snd (post_invoices_create Sample.env
              (Sample.shop true Sample.stocked) Sample.signed_in
              Sample.in_order (Sample.order [Sample.a1]))
         = [customer_search (Sample.order [Sample.a1]);
            sku_lookup Sample.a1; CreateInvoice invoice]
       /\ prop (prop invoice "CustomerRef") "value" = VStr "7"
       /\ fst (post_invoices_create Sample.env
                 (Sample.shop true Sample.stocked) Sample.signed_in
                 Sample.in_order (Sample.order [Sample.a1]))
          = Some (Json 201 (created Sample.invoice_145)).
Proof.
  destruct (existing_customer_reused Sample.env
              (Sample.shop true Sample.stocked) Sample.signed_in
              Sample.in_order (Sample.order [Sample.a1])
              VNull Sample.acme [] eq_refl eq_refl eq_refl)
    as (Hnone & _ & Hstep & _ & Hinvoice).
  split; [exact Hnone|]. split; [exact Hstep|].
  destruct Hinvoice as (invoice & Hcalls & Href & Hres);
    [reflexivity | intros; reflexivity | ].
  exists invoice. split; [exact Hcalls|]. split; [exact Href|].
  rewrite Hres. reflexivity.
Defined.

(** X12. With a valid token, once the customer step has yielded a
    customer and every lookup offers an item, the route issues the
    customer calls, one lookup per line item and then one invoice-create
    whose [Line] holds one entry per line item, in the order of the line
    items, whatever the order in which the answers arrived. *)
Theorem lines_in_request_order
    (env : process_env) (upstream : platform) (oauthClient : OAuthClient)
    (arrival : nat -> nat) (body : request_body)
    (calls : list call) (customer : value) :
  isAccessTokenValid oauthClient = true ->
  findOrCreateCustomer (client env upstream oauthClient) body
    = (calls, Ok customer) ->
  nullish customer = false ->
  (forall j item, nth_error (lineItems body) j = Some item ->
     lookup_fails (sku_reply (client env upstream oauthClient) j item)
       = false) ->
  exists payload,
    snd (post_invoices_create env upstream oauthClient arrival body)
      = calls ++ map sku_lookup (lineItems body) ++ [CreateInvoice payload]
    /\ prop payload "Line"
       = VArr (entries (client env upstream oauthClient) 0 (lineItems body))
    /\ List.length (entries (client env upstream oauthClient) 0
                      (lineItems body))
       = List.length (lineItems body).
Proof.
  intros Hv Hc Hn Hall.
  exists (invoiceData customer body
            (entries (client env upstream oauthClient) 0 (lineItems body))).
  rewrite (post_valid _ _ _ _ _ Hv), assemble_eq, Hc, Hn.
  unfold settled. rewrite (all_matched _ 0 _ Hall).
  pose proof (all_Ok (entries (client env upstream oauthClient) 0
                        (lineItems body))) as Hok.
  apply (first_rejection_none arrival 0%nat) in Hok. rewrite Hok.
  rewrite fulfilled_map_Ok. simpl. rewrite app_assoc.
  repeat split. apply entries_length.
Qed.

Lemma lines_in_request_order_witness :
  exists payload,
    snd (post_invoices_create Sample.env (Sample.shop true Sample.stocked)
           Sample.signed_in Cases.reversed
           (Sample.order [Sample.a1; Sample.zz]))
      = [customer_search (Sample.order [Sample.a1; Sample.zz])]
        ++ map sku_lookup [Sample.a1; Sample.zz] ++ [CreateInvoice payload]
    /\ prop payload "Line"
       = VArr [lineEntry Sample.a1 Sample.widget;
               lineEntry Sample.zz Sample.widget].
Proof.
  destruct (lines_in_request_order Sample.env
              (Sample.shop true Sample.stocked) Sample.signed_in
              Cases.reversed (Sample.order [Sample.a1; Sample.zz])
              [customer_search (Sample.order [Sample.a1; Sample.zz])]
              Sample.acme)
    as (payload & Hcalls & Hline & _);
    [reflexivity | reflexivity | reflexivity | intros; reflexivity | ].
  exists payload. split; [exact Hcalls | exact Hline].
Defined.

(** X13. The order in which the lookup answers arrive changes neither
    the calls of a request nor the kind of its response: under two
    schedules the traces are the same, and the responses are the same
    unless both are 500s, which may differ in [details] only. *)
Theorem arrival_order_changes_details_only
    (env : process_env) (upstream : platform) (oauthClient : OAuthClient)
    (arrival arrival' : nat -> nat) (body : request_body) :
  snd (post_invoices_create env upstream oauthClient arrival body)
    = snd (post_invoices_create env upstream oauthClient arrival' body)
  /\ (fst (post_invoices_create env upstream oauthClient arrival body)
        = fst (post_invoices_create env upstream oauthClient arrival' body)
      \/ exists details details',
           fst (post_invoices_create env upstream oauthClient arrival body)
             = Some (Json 500 (failure details))
           /\ fst (post_invoices_create env upstream oauthClient arrival'
                     body)
              = Some (Json 500 (failure details'))).
Proof.
  destruct (isAccessTokenValid oauthClient) eqn:Hv.
  - rewrite !(post_valid _ _ _ _ _ Hv), !assemble_eq.
    destruct (findOrCreateCustomer (client env upstream oauthClient) body)
      as [t [customer|e]]; [|auto].
    destruct (nullish customer); [auto|].
    destruct (first_rejection arrival 0
                (settled (client env upstream oauthClient) body))
      as [[t1 e1]|] eqn:H1;
      destruct (first_rejection arrival' 0
                  (settled (client env upstream oauthClient) body))
        as [[t2 e2]|] eqn:H2; simpl.
    + split; [reflexivity|]. right. eauto.
    + apply (rejects_whenever arrival' arrival 0 0) in H2. congruence.
    + apply (rejects_whenever arrival arrival' 0 0) in H1. congruence.
    + auto.
  - unfold post_invoices_create. rewrite Hv. auto.
Qed.

(** X14. With a valid token, once the customer step has yielded a
    customer and some lookup fails, the 500 reports one failing line
    item, the one whose answer arrived first: [details] is the [message]
    of what that line item's promise rejected with, and no failing line
    item's answer arrived before it. *)
Theorem first_failure_reported
    (env : process_env) (upstream : platform) (oauthClient : OAuthClient)
    (arrival : nat -> nat) (body : request_body)
    (calls : list call) (customer : value) (i : nat) (item : line_item) :
  isAccessTokenValid oauthClient = true ->
  findOrCreateCustomer (client env upstream oauthClient) body
    = (calls, Ok customer) ->
  nullish customer = false ->
  nth_error (lineItems body) i = Some item ->
  lookup_fails (sku_reply (client env upstream oauthClient) i item) = true ->
  exists j reported,
    nth_error (lineItems body) j = Some reported
    /\ lookup_fails (sku_reply (client env upstream oauthClient) j reported)
       = true
    /\ fst (post_invoices_create env upstream oauthClient arrival body)
       = Some (Json 500
           (failure (prop (rejection (client env upstream oauthClient) j
                             reported) "message")))
    /\ forall k other,
         nth_error (lineItems body) k = Some other ->
         lookup_fails (sku_reply (client env upstream oauthClient) k other)
           = true ->
         (arrival j <= arrival k)%nat.
Proof.
  intros Hv Hc Hn Hi Hf.
  destruct (failing_lookup_rejects _ arrival _ _ _ Hi Hf)
    as (t & error & Hr).
  rewrite (post_valid _ _ _ _ _ Hv), assemble_eq, Hc, Hn, Hr. simpl.
  apply first_rejection_some in Hr. destruct Hr as (j & Hj & Ht & Hmin).
  unfold settled in Hj, Hmin. rewrite settled_nth_error in Hj.
  destruct (nth_error (lineItems body) j) as [reported|] eqn:Hrep;
    simpl in Hj; [|discriminate].
  inversion Hj as [He]. rewrite lineItem_eq in He. simpl in He.
  exists j, reported. split; [exact Hrep|].
  assert (lookup_fails (sku_reply (client env upstream oauthClient) j
                          reported) = true
          /\ error = rejection (client env upstream oauthClient) j reported)
    as (Hfail & ->).
  { unfold lookup_fails, rejection.
    destruct (truthy (fst (sku_reply (client env upstream oauthClient) j
                             reported))); simpl.
    - inversion He. auto.
    - destruct (truthy (first_item
                          (snd (sku_reply (client env upstream oauthClient)
                                  j reported)))); inversion He. auto. }
  repeat split; auto.
  intros k other Hk Hfk. subst t. simpl in Hmin.
  apply (Hmin k (rejection (client env upstream oauthClient) k other)).
  rewrite settled_nth_error, Hk. simpl. f_equal.
  rewrite lineItem_eq. simpl. unfold lookup_fails, rejection in *.
  destruct (truthy (fst (sku_reply (client env upstream oauthClient) k
                           other))); [reflexivity|].
  simpl in Hfk. apply negb_true_iff in Hfk. rewrite Hfk. reflexivity.
Qed.

Lemma first_failure_reported_witness :
  exists j reported,
    nth_error [Sample.a1; Sample.zz] j = Some reported
    /\ fst (post_invoices_create Sample.env (Sample.shop true Sample.flaky)
              Sample.signed_in Cases.reversed
              (Sample.order [Sample.a1; Sample.zz]))
       = Some (Json 500
           (failure (prop (rejection
                             (client Sample.env
                                (Sample.shop true Sample.flaky)
                                Sample.signed_in) j reported) "message")))
    /\ (Cases.reversed j <= Cases.reversed 0)%nat.
Proof.
  destruct (first_failure_reported Sample.env (Sample.shop true Sample.flaky)
              Sample.signed_in Cases.reversed
              (Sample.order [Sample.a1; Sample.zz])
              [customer_search (Sample.order [Sample.a1; Sample.zz])]
              Sample.acme 1 Sample.zz)
    as (j & reported & Hrep & _ & Hout & Hmin);
    [reflexivity | reflexivity | reflexivity | reflexivity | reflexivity | ].
  exists j, reported. split; [exact Hrep|]. split; [exact Hout|].
  apply (Hmin 0%nat Sample.a1); reflexivity.
Defined.

(** With the answers arriving last first, the two failing line items of
    the sample are reported the other way round. *)
Example reported_failure_follows_arrival :
  fst (post_invoices_create Sample.env (Sample.shop true Sample.flaky)
         Sample.signed_in Sample.in_order
         (Sample.order [Sample.a1; Sample.zz]))
    = Some (Json 500 (failure (VStr "socket hang up")))
  /\ fst (post_invoices_create Sample.env (Sample.shop true Sample.flaky)
            Sample.signed_in Cases.reversed
            (Sample.order [Sample.a1; Sample.zz]))
     = Some (Json 500 (failure (VStr "Item with SKU ZZ not found"))).
Proof. split; reflexivity. Qed.

(** X15. With a valid token, once the customer step has yielded a
    customer, the route gets to the invoice-create call exactly when every
    line item's lookup offers an item: nothing else about a line item
    (quantity, prices, description) can stop it. *)
Theorem invoice_call_iff_all_matched
    (env : process_env) (upstream : platform) (oauthClient : OAuthClient)
    (arrival : nat -> nat) (body : request_body)
    (calls : list call) (customer : value) :
  isAccessTokenValid oauthClient = true ->
  findOrCreateCustomer (client env upstream oauthClient) body
    = (calls, Ok customer) ->
  nullish customer = false ->
  (exists payload,
     In (CreateInvoice payload)
        (snd (post_invoices_create env upstream oauthClient arrival body)))
  <-> (forall j item, nth_error (lineItems body) j = Some item ->
         lookup_fails (sku_reply (client env upstream oauthClient) j item)
           = false).
Proof.
  intros Hv Hc Hn. split.
  - intros (payload & Hin) j item Hj.
    apply created_payload in Hin.
    destruct Hin as (_ & _ & _ & _ & Hnone & _).
    destruct (lookup_fails (sku_reply (client env upstream oauthClient) j
                              item)) eqn:Hf; [|reflexivity].
    destruct (failing_lookup_rejects _ arrival _ _ _ Hj Hf)
      as (t & e & Hr). congruence.
  - intros Hall.
    destruct (lines_in_request_order env upstream oauthClient arrival body
                calls customer Hv Hc Hn Hall) as (payload & Hcalls & _).
    exists payload. rewrite Hcalls.
    apply in_or_app; right. apply in_or_app; right. left. reflexivity.
Qed.

Lemma invoice_call_iff_all_matched_witness :
  exists payload,
    In (CreateInvoice payload)
       (snd (post_invoices_create Sample.env
               (Sample.shop true Sample.stocked) Sample.signed_in
               Sample.in_order (Sample.order [Cases.vague]))).
Proof.
  apply (invoice_call_iff_all_matched Sample.env
           (Sample.shop true Sample.stocked) Sample.signed_in
           Sample.in_order (Sample.order [Cases.vague])
           [customer_search (Sample.order [Cases.vague])] Sample.acme);
    [reflexivity | reflexivity | reflexivity | intros; reflexivity].
Defined.

(** ** Quantities *)

Lemma digit_cases (c : ascii) :
  is_digit c = true ->
  c = "0"%char \/ c = "1"%char \/ c = "2"%char \/ c = "3"%char
  \/ c = "4"%char \/ c = "5"%char \/ c = "6"%char \/ c = "7"%char
  \/ c = "8"%char \/ c = "9"%char.
Proof.
  destruct c as [[] [] [] [] [] [] [] []]; simpl; try discriminate;
    intros _; tauto.
Qed.

Lemma digits_val_head (acc : N) (c : ascii) (s : string) n :
  digits_val acc (String c s) = Some n -> is_digit c = true.
Proof. simpl. destruct (is_digit c); [reflexivity | discriminate]. Qed.

(** Reading digits stops at the first character that is not one. *)
Lemma take_digits_stop (s : string) (acc n : N) (c : ascii) (rest : string) :
  digits_val acc s = Some n ->
  is_digit c = false ->
  take_digits acc (s ++ String c rest)
    = (String.length s, n, String c rest).
Proof.
  revert acc; induction s as [|d s IH]; intros acc Hv Hc.
  - simpl in *. rewrite Hc. congruence.
  - change ((String d s ++ String c rest)%string)
      with (String d (s ++ String c rest)).
    cbn [take_digits digits_val String.length] in *.
    destruct (is_digit d); [|discriminate].
    rewrite (IH _ Hv Hc). reflexivity.
Qed.

Lemma signed_of_N (n : N) : signed false n = of_Z (Z.of_N n).
Proof. destruct n; reflexivity. Qed.

(** [parseInt] of a decimal numeral followed by a fraction is the Number
    of the numeral. *)
Lemma parseInt_fraction (whole rest : string) (n : N) :
  whole <> "" ->
  digits_val 0 whole = Some n ->
  parseInt (whole ++ "." ++ rest) = of_Z (Z.of_N n).
Proof.
  intros Hne Hv. rewrite <- signed_of_N.
  destruct whole as [|c w]; [congruence|].
  pose proof (digits_val_head _ _ _ _ Hv) as Hc.
  pose proof (take_digits_stop (String c w) 0 n "." rest Hv eq_refl) as Ht.
  change ((String c w ++ "." ++ rest)%string)
    with (String c (w ++ String "." rest)) in *.
  assert (trim_start (String c (w ++ String "." rest))
          = String c (w ++ String "." rest)) as Htrim
    by (destruct (digit_cases c Hc) as [->|[->|[->|[->|[->|[->|[->|[->|[->| ->]]]]]]]]];
        reflexivity).
  assert (take_sign (String c (w ++ String "." rest))
          = (false, String c (w ++ String "." rest))) as Hsign
    by (destruct (digit_cases c Hc) as [->|[->|[->|[->|[->|[->|[->|[->|[->| ->]]]]]]]]];
        reflexivity).
  unfold parseInt. rewrite Htrim, Hsign.
  cbn [String.append] in Ht.
  destruct (digit_cases c Hc) as [->|[->|[->|[->|[->|[->|[->|[->|[->| ->]]]]]]]]];
    try (cbv beta iota; rewrite Ht; reflexivity).
  destruct w as [|d w'].
  - simpl in *. inversion Hv. reflexivity.
  - change ((String d w' ++ String "." rest)%string)
      with (String d (w' ++ String "." rest)) in *.
    assert (is_digit d = true) as Hd.
    { simpl in Hv. destruct (is_digit d); [reflexivity | discriminate]. }
    assert ((Ascii.eqb d "x" || Ascii.eqb d "X")%bool = false) as Hx
      by (destruct (digit_cases d Hd) as [->|[->|[->|[->|[->|[->|[->|[->|[->| ->]]]]]]]]];
          reflexivity).
    cbv beta iota. rewrite Hx. cbn [String.append] in Ht |- *.
    rewrite Ht. reflexivity.
Qed.

(** X16. A quantity written with a fraction is cut to its whole part:
    for a quantity string [whole.rest] with [whole] a decimal numeral, the
    line entry's [Qty] is the Number of [whole], whatever [rest] is. *)
Theorem fractional_quantity_truncated
    (item : line_item) (found : value) (whole rest : string) (n : N) :
  whole <> "" ->
  digits_val 0 whole = Some n ->
  quantity item = (whole ++ "." ++ rest)%string ->
  prop (prop (lineEntry item found) "SalesItemLineDetail") "Qty"
    = VNum (of_Z (Z.of_N n)).
Proof.
  intros Hne Hv Hq. unfold lineEntry. simpl. rewrite Hq.
  rewrite (parseInt_fraction _ _ _ Hne Hv). reflexivity.
Qed.

Lemma fractional_quantity_truncated_witness :
  prop (prop (lineEntry Cases.half Sample.widget) "SalesItemLineDetail")
    "Qty" = VNum (of_Z 2).
Proof.
  apply (fractional_quantity_truncated Cases.half Sample.widget "2" "75" 2);
    [discriminate | reflexivity | reflexivity].
Defined.

(** ** More on the list route *)

(** X17. With a valid token, when the list call answers without error
    and with a body, the route answers 200 with that body as it came, and
    the list call is the only upstream call. *)
Theorem list_passes_body_through
    (env : process_env) (upstream : platform) (oauthClient : OAuthClient)
    (err invoices : value) :
  isAccessTokenValid oauthClient = true ->
  findInvoices (client env upstream oauthClient)
    (VObj [("fetchAll", VBool true)]) = Called err invoices ->
  truthy err = false ->
  nullish invoices = false ->
  get_api_invoices env upstream oauthClient
    = (Some (Json 200 invoices), [list_call]).
Proof.
  intros Hv Hf He Hn. unfold get_api_invoices. rewrite Hv. simpl.
  fold (client env upstream oauthClient). rewrite Hf.
  unfold findInvoices_callback, get. rewrite He, Hn. reflexivity.
Qed.

Lemma list_passes_body_through_witness :
  get_api_invoices Sample.env Cases.no_invoice Sample.signed_in
    = (Some (Json 200 Cases.listing), [list_call]).
Proof.
  apply (list_passes_body_through Sample.env Cases.no_invoice
           Sample.signed_in VNull Cases.listing); reflexivity.
Defined.

(** X18. Whatever the token and the platform, the list route issues at
    most one upstream call, the list call, and its response is a redirect
    to [/auth], a 500 with the fixed body, or a 200 with the body the list
    call was answered with: no part of an upstream error ever reaches the
    caller.  (Its code sends nothing when the list call answers with
    neither an error nor a body: the callback throws.) *)
Theorem list_route_responses
    (env : process_env) (upstream : platform) (oauthClient : OAuthClient) :
  (snd (get_api_invoices env upstream oauthClient) = []
   \/ snd (get_api_invoices env upstream oauthClient) = [list_call])
  /\ match fst (get_api_invoices env upstream oauthClient) with
     | None =>
         exists err invoices,
           findInvoices (client env upstream oauthClient)
             (VObj [("fetchAll", VBool true)]) = Called err invoices
           /\ truthy err = false /\ nullish invoices = true
     | Some (Redirect location) => location = "/auth"
     | Some (Json status sent) =>
         (status = 500 /\ sent = fetch_failure)
         \/ (status = 200
             /\ exists err,
                  findInvoices (client env upstream oauthClient)
                    (VObj [("fetchAll", VBool true)]) = Called err sent
                  /\ truthy err = false)
     end.
Proof.
  unfold get_api_invoices.
  destruct (isAccessTokenValid oauthClient); simpl; [|auto].
  fold (client env upstream oauthClient).
  destruct (findInvoices (client env upstream oauthClient)
              (VObj [("fetchAll", VBool true)])) as [error|err invoices];
    simpl; (split; [right; reflexivity|]).
  - unfold invoices_catch.
    destruct (truthy (lookup error "authResponse")
              && strict_eq_num
                   (prop (lookup error "authResponse") "status") (of_Z 401));
      auto.
  - unfold findInvoices_callback, get.
    destruct (truthy err) eqn:He; [auto|].
    destruct (nullish invoices) eqn:Hn; eauto 6.
Qed.

Lemma status_is_own_property (v : value) (n : number) :
  prop v "status" = VNum n -> truthy v = true.
Proof.
  destruct v as [| | b | m | s | l | o]; simpl; try discriminate; auto.
Qed.

(** X19. With a valid token, an error thrown by the list call leads to
    the redirect to [/auth] exactly when its [authResponse.status] is a
    Number equal to 401; any other thrown error, one whose status is the
    string ["401"] included, leads to the 500 with the fixed body. *)
Theorem thrown_error_redirects_on_401
    (env : process_env) (upstream : platform) (oauthClient : OAuthClient)
    (error : obj) :
  isAccessTokenValid oauthClient = true ->
  findInvoices (client env upstream oauthClient)
    (VObj [("fetchAll", VBool true)]) = Thrown error ->
  (fst (get_api_invoices env upstream oauthClient) = Some (Redirect "/auth")
   <-> exists n,
         prop (lookup error "authResponse") "status" = VNum n
         /\ num_eqb n (of_Z 401) = true)
  /\ (fst (get_api_invoices env upstream oauthClient)
        = Some (Redirect "/auth")
      \/ fst (get_api_invoices env upstream oauthClient)
         = Some (Json 500 fetch_failure)).
Proof.
  intros Hv Hf. rewrite (list_thrown _ _ _ _ Hv Hf). simpl.
  unfold invoices_catch, strict_eq_num.
  destruct (prop (lookup error "authResponse") "status")
    as [| | b | m | s | l | o] eqn:Hs;
    try (rewrite andb_false_r; split; [|auto];
         split; [discriminate | intros (n & Hn & _); discriminate]).
  rewrite (status_is_own_property _ _ Hs). simpl.
  match goal with
  | |- context [num_eqb m ?x] => destruct (num_eqb m x) eqn:Hm
  end.
  - split; [|auto]. split; eauto.
  - split; [|auto]. split; [discriminate|].
    intros (n & Hn & Heq). inversion Hn; subst. congruence.
Qed.

Lemma thrown_error_redirects_on_401_witness :
  (fst (get_api_invoices Sample.env (Cases.throwing Cases.stringly)
          Sample.signed_in) = Some (Redirect "/auth")
   <-> exists n,
         prop (lookup Cases.stringly "authResponse") "status" = VNum n
         /\ num_eqb n (of_Z 401) = true)
  /\ (fst (get_api_invoices Sample.env (Cases.throwing Cases.stringly)
             Sample.signed_in) = Some (Redirect "/auth")
      \/ fst (get_api_invoices Sample.env (Cases.throwing Cases.stringly)
                Sample.signed_in) = Some (Json 500 fetch_failure)).
Proof.
  apply (thrown_error_redirects_on_401 Sample.env
           (Cases.throwing Cases.stringly) Sample.signed_in Cases.stringly);
    reflexivity.
Defined.

(** The string status of the sample gives the 500. *)
Example string_status_is_not_401 :
  get_api_invoices Sample.env (Cases.throwing Cases.stringly)
    Sample.signed_in
    = (Some (Json 500 fetch_failure), [list_call]).
Proof. reflexivity. Qed.

(** ** The token, from the callback to the next request *)

(** X20. After a callback whose exchange resolved with a token, the next
    request works with that token: the helper's validity check is made on
    it, the accounting client is built from its [access_token], [realmId]
    and [refresh_token], and the list route issues its call or redirects
    to [/auth] according to that check alone. *)
Theorem callback_token_used_next
    (v : variant)
    (createToken : OAuthClient -> string -> exchange * OAuthClient)
    (oauthClient helper : OAuthClient) (url : string) (t : obj)
    (env : process_env) (upstream : platform) :
  createToken oauthClient url = (Resolved (Some t), helper) ->
  let after := snd (fst (get_callback v createToken oauthClient url)) in
  isAccessTokenValid after = checkExpiry helper t
  /\ oauthToken (initializeQBO env after) = lookup t "access_token"
  /\ realmId (initializeQBO env after) = lookup t "realmId"
  /\ refreshToken (initializeQBO env after) = lookup t "refresh_token"
  /\ (checkExpiry helper t = true ->
      snd (get_api_invoices env upstream after) = [list_call])
  /\ (checkExpiry helper t = false ->
      get_api_invoices env upstream after = (Some (Redirect "/auth"), [])).
Proof.
  intros He. unfold get_callback. rewrite He. simpl.
  repeat split.
  - intros Hok. unfold get_api_invoices, isAccessTokenValid. simpl.
    rewrite Hok. simpl.
    destruct (findInvoices _ _); reflexivity.
  - intros Hko. unfold get_api_invoices, isAccessTokenValid. simpl.
    rewrite Hko. reflexivity.
Qed.

Lemma callback_token_used_next_witness :
  isAccessTokenValid
    (snd (fst (get_callback Standalone (Cases.grants Sample.fresh)
                 Sample.signed_out Sample.callback_url))) = false
  /\ oauthToken
       (initializeQBO Sample.env
          (snd (fst (get_callback Standalone (Cases.grants Sample.fresh)
                       Sample.signed_out Sample.callback_url))))
     = VStr "at2"
  /\ get_api_invoices Sample.env (Sample.shop true Sample.stocked)
       (snd (fst (get_callback Standalone (Cases.grants Sample.fresh)
                    Sample.signed_out Sample.callback_url)))
     = (Some (Redirect "/auth"), []).
Proof.
  destruct (callback_token_used_next Standalone
              (Cases.grants Sample.fresh) Sample.signed_out
              Sample.signed_out Sample.callback_url Sample.fresh Sample.env
              (Sample.shop true Sample.stocked) eq_refl)
    as (Hvalid & Htoken & _ & _ & _ & Hredirect).
  split; [exact Hvalid|]. split; [exact Htoken|].
  apply Hredirect. reflexivity.
Defined.

(** X21. When the exchange is rejected, [src/index.js] passes the
    error's [message] to the caller as [details], while the stand-alone
    entry point answers with the same fixed body whatever the error. *)
Theorem callback_failure_bodies
    (createToken : OAuthClient -> string -> exchange * OAuthClient)
    (oauthClient : OAuthClient) (url : string) (error : obj) :
  fst (createToken oauthClient url) = Rejected error ->
  fst (fst (get_callback Index createToken oauthClient url))
    = Json 500 (VObj [("error", VStr "Authentication failed");
                      ("details", lookup error "message")])
  /\ fst (fst (get_callback Standalone createToken oauthClient url))
     = Json 500 (VObj [("error", VStr "Authentication failed")]).
Proof.
  intros He. unfold get_callback.
  destruct (createToken oauthClient url) as [ended helper].
  simpl in He. rewrite He. split; reflexivity.
Qed.

Lemma callback_failure_bodies_witness :
  fst (fst (get_callback Index (Cases.refuses Sample.denied)
              Sample.signed_in Sample.callback_url))
    = Json 500 (VObj [("error", VStr "Authentication failed");
                      ("details", VStr "invalid_grant")])
  /\ fst (fst (get_callback Standalone (Cases.refuses Sample.denied)
                 Sample.signed_in Sample.callback_url))
     = Json 500 (VObj [("error", VStr "Authentication failed")]).
Proof.
  apply (callback_failure_bodies (Cases.refuses Sample.denied)
           Sample.signed_in Sample.callback_url Sample.denied).
  reflexivity.
Defined.

(** ** initializeQBO *)

(** X23. The client a route works with is a sandbox client exactly when
    [ENVIRONMENT] is the string ["sandbox"], letter for letter: any other
    value, and no value at all, gives a production client.  The token
    fields are passed on as stored, [undefined] where the record has
    none. *)
Theorem sandbox_only_when_spelled_out
    (env : process_env) (oauthClient : OAuthClient) :
  (useSandbox (initializeQBO env oauthClient) = true
   <-> ENVIRONMENT env = VStr "sandbox")
  /\ (token oauthClient = [] ->
      oauthToken (initializeQBO env oauthClient) = VUndef
      /\ realmId (initializeQBO env oauthClient) = VUndef
      /\ refreshToken (initializeQBO env oauthClient) = VUndef).
Proof.
  split.
  - unfold initializeQBO, strict_eq_str. simpl.
    destruct (ENVIRONMENT env) as [| | b | m | s | l | o];
      try (split; discriminate).
    rewrite String.eqb_eq. split; congruence.
  - unfold initializeQBO, getToken. simpl. intros ->. repeat split.
Qed.

Lemma sandbox_only_when_spelled_out_witness :
  useSandbox (initializeQBO Cases.production Sample.signed_out) = false
  /\ oauthToken (initializeQBO Cases.production Sample.signed_out) = VUndef.
Proof.
  destruct (sandbox_only_when_spelled_out Cases.production Sample.signed_out)
    as (Hiff & Hnone).
  split.
  - apply Bool.not_true_is_false. intros H. apply Hiff in H. discriminate.
  - apply Hnone. reflexivity.
Defined.
